(** * Shallow embedding of the smell triage engine (scripts/fix_smells.py,
    scripts/qlty/model.py, scripts/qlty/parser.py, scripts/qlty/report.py).

    Conventions of the embedding:
    - Python [str] is [string]; characters are modelled as ASCII, and
      [str.lower] / [str.upper] act on the ASCII letters.
    - Python [int] is [Z]; Python [float] arithmetic of [severity_score]
      is modelled by exact rationals [Q] (rounding is not modelled).
    - A Python [dict] is a stdpp [gmap] where only lookup matters, and a
      Python [list] is a Rocq [list] (order is kept).
    - The SARIF document is modelled at its schema types: every key read
      with [.get(k, d)] is an [option] field, [None] meaning "key absent". *)

From Stdlib Require Import ZArith QArith String Ascii List Sorting.Sorted Permutation.
From stdpp Require Import base gmap sets list strings.

Open Scope Z_scope.
Open Scope string_scope.

(* ================================================================== *)
(** ** String helpers (Python [str] methods used by the code) *)

Module Py.

Definition is_ws (c : ascii) : bool :=
  let n := nat_of_ascii c in
  (Nat.leb 9 n && Nat.leb n 13) || (Nat.leb 28 n && Nat.leb n 32).

Definition is_digit (c : ascii) : bool :=
  let n := nat_of_ascii c in Nat.leb 48 n && Nat.leb n 57.

Definition lower_char (c : ascii) : ascii :=
  let n := nat_of_ascii c in
  if Nat.leb 65 n && Nat.leb n 90 then ascii_of_nat (n + 32) else c.

Definition upper_char (c : ascii) : ascii :=
  let n := nat_of_ascii c in
  if Nat.leb 97 n && Nat.leb n 122 then ascii_of_nat (n - 32) else c.

Fixpoint map_chars (f : ascii -> ascii) (s : string) : string :=
  match s with
  | EmptyString => EmptyString
  | String c r => String (f c) (map_chars f r)
  end.

(** [s.lower()] and [s.upper()] *)
Definition lower (s : string) : string := map_chars lower_char s.
Definition upper (s : string) : string := map_chars upper_char s.

(** [s.startswith(p)] *)
Fixpoint startswith (s p : string) : bool :=
  match p, s with
  | EmptyString, _ => true
  | String a p', String b s' => Ascii.eqb a b && startswith s' p'
  | String _ _, EmptyString => false
  end.

(** [needle in hay] *)
Fixpoint contains (hay needle : string) : bool :=
  startswith hay needle ||
  match hay with
  | EmptyString => false
  | String _ h' => contains h' needle
  end.

(** [s.split(sep)] for a one-character separator. *)
Fixpoint split (sep : ascii) (s : string) : list string :=
  match s with
  | EmptyString => [EmptyString]
  | String a r =>
      let parts := split sep r in
      if Ascii.eqb a sep then EmptyString :: parts
      else match parts with
           | p :: ps => String a p :: ps
           | [] => [String a EmptyString]
           end
  end.

(** [s.rfind(c)], [None] for -1. *)
Fixpoint rfind (c : ascii) (s : string) : option nat :=
  match s with
  | EmptyString => None
  | String a r =>
      match rfind c r with
      | Some i => Some (S i)
      | None => if Ascii.eqb a c then Some 0%nat else None
      end
  end.

(** [int(digits)] *)
Fixpoint digits_value (acc : Z) (s : string) : Z :=
  match s with
  | EmptyString => acc
  | String c r => digits_value (acc * 10 + (Z.of_nat (nat_of_ascii c) - 48)) r
  end.

End Py.

(* ================================================================== *)
(** ** [pathlib.PurePosixPath]: [parts], [name], [suffix] *)

Module PPath.

Fixpoint strip_slashes (s : string) : string :=
  match s with
  | String "/"%char r => strip_slashes r
  | _ => s
  end.

(** Root parsing of a POSIX path: exactly two leading slashes are kept
    as the root ["//"], one or three and more give ["/"]. *)
Definition split_root (s : string) : string * string :=
  match s with
  | String "/"%char (String "/"%char (String "/"%char _)) => ("/", strip_slashes s)
  | String "/"%char (String "/"%char r) => ("//", strip_slashes r)
  | String "/"%char r => ("/", strip_slashes r)
  | _ => ("", s)
  end.

(** The components after the root: empty and ["."] segments dropped. *)
Definition tail (s : string) : list string :=
  List.filter (fun c => negb (String.eqb c "") && negb (String.eqb c "."))
    (Py.split "/" (snd (split_root s))).

(** [Path(s).parts] *)
Definition parts (s : string) : list string :=
  let r := fst (split_root s) in
  (if String.eqb r "" then [] else [r]) ++ tail s.

(** [Path(s).name] *)
Definition name (s : string) : string := List.last (tail s) "".

(** [Path(s).suffix]: [name[i:]] when [0 < i < len(name) - 1]. *)
Definition suffix (s : string) : string :=
  let nm := name s in
  match Py.rfind "." nm with
  | Some i =>
      if Nat.ltb 0 i && Nat.ltb i (String.length nm - 1)
      then String.substring i (String.length nm - i) nm
      else ""
  | None => ""
  end.

End PPath.

(* ================================================================== *)
(** ** Constants of fix_smells.py *)

Definition _LANG_MAP : gmap string string :=
  list_to_map [
    (".rs", "rust"); (".py", "python"); (".pyi", "python");
    (".ts", "typescript"); (".tsx", "typescript");
    (".js", "javascript"); (".jsx", "javascript"); (".mjs", "javascript");
    (".cjs", "javascript"); (".go", "go"); (".java", "java");
    (".cs", "csharp"); (".rb", "ruby"); (".kt", "kotlin"); (".kts", "kotlin");
    (".swift", "swift"); (".cpp", "cpp"); (".cc", "cpp"); (".cxx", "cpp");
    (".c", "c"); (".h", "c"); (".hpp", "hpp"); (".scala", "scala");
    (".php", "php"); (".lua", "lua"); (".ex", "elixir"); (".exs", "elixir");
    (".dart", "dart"); (".r", "r"); (".jl", "julia"); (".zig", "zig");
    (".sol", "solidity"); (".sh", "bash"); (".bash", "bash")].

Definition _WORKSPACE_DIRS : list string :=
  ["crates"; "packages"; "apps"; "libs"; "modules"; "services"; "projects";
   "components"; "plugins"; "extensions"; "workspaces"; "internal"; "cmd";
   "pkg"].

(** [class Priority(IntEnum)] *)
Inductive Priority := CRITICAL | HIGH | MEDIUM | LOW | INFO.

Definition priority_ord (p : Priority) : Z :=
  match p with CRITICAL => 1 | HIGH => 2 | MEDIUM => 3 | LOW => 4 | INFO => 5 end.

#[global] Instance Priority_eq_dec : EqDecision Priority.
Proof. solve_decision. Defined.

(** Iteration order of [for prio in Priority]. *)
Definition all_priorities : list Priority := [CRITICAL; HIGH; MEDIUM; LOW; INFO].

(** [Priority[name]], raising [KeyError] ([None]) on an unknown name. *)
Definition priority_of_name (s : string) : option Priority :=
  if String.eqb s "CRITICAL" then Some CRITICAL
  else if String.eqb s "HIGH" then Some HIGH
  else if String.eqb s "MEDIUM" then Some MEDIUM
  else if String.eqb s "LOW" then Some LOW
  else if String.eqb s "INFO" then Some INFO
  else None.

(** The initial value of the global [RULE_PRIORITY] table
    ([load_config] may overwrite entries; the functions below therefore
    take the table as an argument). *)
Definition RULE_PRIORITY : gmap string Priority :=
  list_to_map [
    ("identical-code", CRITICAL); ("similar-code", HIGH);
    ("function-complexity", MEDIUM); ("method-complexity", MEDIUM);
    ("cognitive-complexity", MEDIUM); ("file-complexity", MEDIUM);
    ("nested-control-flow", MEDIUM); ("deep-nesting", MEDIUM);
    ("long-method", MEDIUM); ("large-class", MEDIUM);
    ("boolean-logic", LOW); ("complex-condition", LOW);
    ("function-parameters", LOW); ("too-many-arguments", LOW);
    ("return-statements", LOW); ("god-class", HIGH);
    ("feature-envy", MEDIUM); ("data-clump", MEDIUM)].

(* ================================================================== *)
(** ** Data model: [SmellLocation] and [Smell] *)

Record SmellLocation := {
  uri : string;
  start_line : Z;
  start_column : Z;
  end_line : Z;
  end_column : Z;
  language : string
}.

(** [SmellLocation.detected_language] *)
Definition detected_language (l : SmellLocation) : string :=
  if negb (String.eqb (language l) "") then language l
  else match _LANG_MAP !! Py.lower (PPath.suffix (uri l)) with
       | Some lang => lang
       | None => ""
       end.

Fixpoint find_workspace_module (ps : list string) : option string :=
  match ps with
  | p :: ((q :: _) as rest) =>
      if bool_decide (p ∈ _WORKSPACE_DIRS) then Some q
      else find_workspace_module rest
  | _ => None
  end.

(** [SmellLocation.module_name] *)
Definition module_name (l : SmellLocation) : string :=
  let ps := PPath.parts (uri l) in
  match find_workspace_module ps with
  | Some m => m
  | None =>
      match ps with
      | p0 :: p1 :: _ =>
          if String.eqb p0 "src" || String.eqb p0 "lib" then p1 else ""
      | _ => ""
      end
  end.

(** [SmellLocation.line_count] *)
Definition line_count (l : SmellLocation) : Z :=
  Z.max 1 (end_line l - start_line l + 1).

Record Smell := {
  rule_id : string;
  level : string;
  message : string;
  location : SmellLocation;
  fingerprints : gmap string string;
  taxa : list string
}.

(** [Smell.rule_short]: [self.rule_id.split(":")[-1]] *)
Definition rule_short (s : Smell) : string :=
  List.last (Py.split ":" (rule_id s)) "".

(** [Smell.function_name] *)
Definition function_name (s : Smell) : string :=
  match fingerprints s !! "function.name" with Some f => f | None => "" end.

(** [Smell.priority] against the current [RULE_PRIORITY] table. *)
Definition priority (tbl : gmap string Priority) (s : Smell) : Priority :=
  match tbl !! rule_short s with Some p => p | None => INFO end.

(** [re.search(r"count\s*=\s*(\d+)", message)]: the regular expression is
    matched at each position from the left; [\s*] cannot give back
    characters to ['='], and [(\d+)] takes the longest run of digits. *)
Module CountRe.

Fixpoint skip_ws (s : string) : string :=
  match s with
  | String c r => if Py.is_ws c then skip_ws r else s
  | EmptyString => s
  end.

Fixpoint take_digits (s : string) : string :=
  match s with
  | String c r => if Py.is_digit c then String c (take_digits r) else EmptyString
  | EmptyString => EmptyString
  end.

Definition match_at (s : string) : option Z :=
  if Py.startswith s "count" then
    match skip_ws (String.substring 5 (String.length s - 5) s) with
    | String "="%char r =>
        match take_digits (skip_ws r) with
        | EmptyString => None
        | ds => Some (Py.digits_value 0 ds)
        end
    | _ => None
    end
  else None.

Fixpoint search (s : string) : option Z :=
  match match_at s with
  | Some n => Some n
  | None => match s with EmptyString => None | String _ r => search r end
  end.

End CountRe.

(** [Smell.complexity_count] *)
Definition complexity_count (s : Smell) : option Z := CountRe.search (message s).

(** [Smell.severity_score] *)
Definition severity_score (tbl : gmap string Priority) (s : Smell) : Q :=
  let base := inject_Z ((6 - priority_ord (priority tbl s)) * 10) in
  let span := Z.min (line_count (location s)) 100 in
  let cc := match complexity_count s with Some n => n | None => 0 end in
  base + inject_Z span * (3 # 10) + inject_Z cc * (1 # 2).

(* ================================================================== *)
(** ** [filter_smells] *)

(** The keyword arguments of [filter_smells]; [None] is Python's [None]. *)
Record Filters := {
  file_filter : option string;
  rule_filter : option string;
  module_filter : option string;
  priority_filter : option string;
  language_filter : option string;
  min_severity : option Q
}.

(** [if x:] on an optional string: [None] and [""] are falsy. *)
Definition truthy (o : option string) : option string :=
  match o with
  | Some v => if String.eqb v "" then None else Some v
  | None => None
  end.

Definition filter_smells (tbl : gmap string Priority) (smells : list Smell)
    (f : Filters) : list Smell :=
  let out := smells in
  let out := match truthy (file_filter f) with
             | Some ff => List.filter (fun s => Py.contains (uri (location s)) ff) out
             | None => out end in
  let out := match truthy (rule_filter f) with
             | Some rf => List.filter (fun s => Py.contains (rule_short s) rf) out
             | None => out end in
  let out := match truthy (module_filter f) with
             | Some mf => List.filter (fun s => Py.contains (module_name (location s)) mf) out
             | None => out end in
  let out := match truthy (language_filter f) with
             | Some lf0 =>
                 let lf := Py.lower lf0 in
                 List.filter (fun s => String.eqb (detected_language (location s)) lf) out
             | None => out end in
  let out := match truthy (priority_filter f) with
             | Some pf =>
                 match priority_of_name (Py.upper pf) with
                 | Some prio => List.filter (fun s => bool_decide (priority tbl s = prio)) out
                 | None => out   (* KeyError: warning, filter skipped *)
                 end
             | None => out end in
  let out := match min_severity f with
             | Some ms => List.filter (fun s => Qle_bool ms (severity_score tbl s)) out
             | None => out end in
  out.

Definition no_filters : Filters :=
  {| file_filter := None; rule_filter := None; module_filter := None;
     priority_filter := None; language_filter := None; min_severity := None |}.

(** One filter argument given, all others left at [None]. *)
Inductive SingleFilter :=
  | ByFile (v : string)
  | ByRule (v : string)
  | ByModule (v : string)
  | ByLanguage (v : string)
  | ByPriority (v : string)
  | ByMinSeverity (q : Q).

Definition single_filters (sf : SingleFilter) : Filters :=
  match sf with
  | ByFile v => {| file_filter := Some v; rule_filter := None; module_filter := None;
                   priority_filter := None; language_filter := None; min_severity := None |}
  | ByRule v => {| file_filter := None; rule_filter := Some v; module_filter := None;
                   priority_filter := None; language_filter := None; min_severity := None |}
  | ByModule v => {| file_filter := None; rule_filter := None; module_filter := Some v;
                     priority_filter := None; language_filter := None; min_severity := None |}
  | ByLanguage v => {| file_filter := None; rule_filter := None; module_filter := None;
                       priority_filter := None; language_filter := Some v; min_severity := None |}
  | ByPriority v => {| file_filter := None; rule_filter := None; module_filter := None;
                       priority_filter := Some v; language_filter := None; min_severity := None |}
  | ByMinSeverity q => {| file_filter := None; rule_filter := None; module_filter := None;
                          priority_filter := None; language_filter := None; min_severity := Some q |}
  end.

Definition filter_single (tbl : gmap string Priority) (sf : SingleFilter)
    (smells : list Smell) : list Smell :=
  filter_smells tbl smells (single_filters sf).

(* ================================================================== *)
(** ** Python's [sorted]: a stable insertion sort on a strict order *)

Section StableSort.
Context {A : Type} (lt : A -> A -> bool).

(** [x] is placed before the first element that is not smaller than it,
    so it stays ahead of the equal elements that followed it. *)
Fixpoint insert_by (x : A) (l : list A) : list A :=
  match l with
  | [] => [x]
  | y :: l' => if lt y x then y :: insert_by x l' else x :: y :: l'
  end.

Fixpoint sort_by (l : list A) : list A :=
  match l with
  | [] => []
  | x :: l' => insert_by x (sort_by l')
  end.

End StableSort.

(* ================================================================== *)
(** ** [report_plan] *)

(** The lines printed by [report_plan], with the guidance block of
    [generate_fix_instruction(s)] kept abstract as [Guidance s]. *)
Inductive PlanLine :=
  | PrioHeader (p : Priority) (n : nat)
  | FileHeader (u : string) (n : nat)
  | Guidance (s : Smell)
  | AlsoAt (s : Smell).

(** The de-duplication key [f"{s.rule_short}:{fn}"]. *)
Definition plan_key (s : Smell) : string :=
  let fn := if String.eqb (function_name s) "" then "file" else function_name s in
  rule_short s ++ ":" ++ fn.

(** Insertion-ordered keys of a [defaultdict(list)] filled from [l]. *)
Definition keys_in_order (l : list string) : list string :=
  fold_left (fun acc k => if bool_decide (k ∈ acc) then acc else app acc [k]) l [].

Definition group_by_uri (items : list Smell) (u : string) : list Smell :=
  List.filter (fun s => String.eqb (uri (location s)) u) items.

(** The loop over one file's smells, sorted by start line, with [seen]. *)
Fixpoint plan_file (seen : list string) (fs : list Smell) : list PlanLine :=
  match fs with
  | [] => []
  | s :: r =>
      let k := plan_key s in
      if bool_decide (k ∈ seen) then AlsoAt s :: plan_file seen r
      else Guidance s :: plan_file (k :: seen) r
  end.

Definition start_lt (a b : Smell) : bool :=
  Z.ltb (start_line (location a)) (start_line (location b)).

Definition plan_prio (tbl : gmap string Priority) (smells : list Smell)
    (prio : Priority) : list PlanLine :=
  let items := List.filter (fun s => bool_decide (priority tbl s = prio)) smells in
  match items with
  | [] => []
  | _ =>
      let by_file := group_by_uri items in
      let len_lt u v := Nat.ltb (length (by_file v)) (length (by_file u)) in
      PrioHeader prio (length items) ::
      flat_map (fun u =>
          FileHeader u (length (by_file u)) ::
          plan_file [] (sort_by start_lt (by_file u)))
        (sort_by len_lt (keys_in_order (map (fun s => uri (location s)) items)))
  end.

Definition report_plan (tbl : gmap string Priority) (smells : list Smell) : list PlanLine :=
  flat_map (plan_prio tbl smells) all_priorities.

(* ================================================================== *)
(** ** Strategy registry and [apply_fixes] *)

(** A [FixStrategy]; the instruction text is not modelled. *)
Record FixStrategy := {
  st_rule : string;
  st_title : string;
  st_auto_fixable : bool
}.

Definition _BUILTIN_STRATEGIES : list FixStrategy :=
  map (fun '(r, t, a) => {| st_rule := r; st_title := t; st_auto_fixable := a |}) [
    ("identical-code", "Eliminate identical code blocks", false);
    ("similar-code", "Deduplicate similar code blocks", false);
    ("function-complexity", "Reduce function complexity", false);
    ("method-complexity", "Reduce method complexity", false);
    ("cognitive-complexity", "Lower cognitive complexity", false);
    ("nested-control-flow", "Flatten deeply nested control flow", true);
    ("deep-nesting", "Flatten deep nesting", false);
    ("file-complexity", "Split complex file into modules", false);
    ("long-method", "Shorten long method", false);
    ("large-class", "Decompose large class", false);
    ("god-class", "Break apart god class", false);
    ("feature-envy", "Fix feature envy", false);
    ("data-clump", "Eliminate data clumps", false);
    ("boolean-logic", "Simplify boolean expressions", true);
    ("complex-condition", "Simplify complex conditional", false);
    ("function-parameters", "Reduce function parameter count", false);
    ("too-many-arguments", "Reduce argument count", false);
    ("return-statements", "Reduce return statements", false)].

(** [_register_builtins()]: later registrations overwrite earlier ones. *)
Definition STRATEGY_REGISTRY : gmap string FixStrategy :=
  fold_left (fun m st => <[st_rule st := st]> m) _BUILTIN_STRATEGIES ∅.

Definition get_strategy (reg : gmap string FixStrategy) (rule : string) : option FixStrategy :=
  reg !! rule.

Definition is_auto_fixable (reg : gmap string FixStrategy) (s : Smell) : bool :=
  match get_strategy reg (rule_short s) with
  | Some st => st_auto_fixable st
  | None => false
  end.

(** The sort key [(-s.severity_score, s.location.uri)], compared
    lexicographically. *)
Definition fix_key_lt (tbl : gmap string Priority) (a b : Smell) : bool :=
  let qa := severity_score tbl a in
  let qb := severity_score tbl b in
  negb (Qle_bool qa qb) ||
  (Qeq_bool qa qb &&
   match String.compare (uri (location a)) (uri (location b)) with
   | Lt => true | _ => false end).

(** What [apply_fixes] does: the smells it attempts, in order, and the
    counters it prints. [attempt_fix] is the strategy's external rewrite. *)
Record FixRun := {
  attempted : list Smell;
  n_fixed : nat;
  n_skipped : nat;
  n_manual : nat
}.

Definition apply_fixes (tbl : gmap string Priority) (reg : gmap string FixStrategy)
    (attempt_fix : FixStrategy -> Smell -> bool) (smells : list Smell) : FixRun :=
  let fixable := List.filter (is_auto_fixable reg) smells in
  let order := sort_by (fix_key_lt tbl) fixable in
  let ok s := match get_strategy reg (rule_short s) with
              | Some st => attempt_fix st s
              | None => false end in
  {| attempted := order;
     n_fixed := length (List.filter ok order);
     n_skipped := length (List.filter (fun s => negb (ok s)) order);
     n_manual := length smells - length fixable |}.

(* ================================================================== *)
(** ** The SARIF 2.1.0 document, at its schema types *)

Module Sarif.

Record Region := {
  startLine : option Z;
  startColumn : option Z;
  endLine : option Z;
  endColumn : option Z;
  sourceLanguage : option string
}.

Record ArtifactLocation := { art_uri : option string }.

Record PhysicalLocation := {
  artifactLocation : option ArtifactLocation;
  region : option Region
}.

Record Location := { physicalLocation : option PhysicalLocation }.

Record Message := { text : option string }.

Record Taxon := { taxon_id : option string }.

Record Result := {
  ruleId : option string;
  level : option string;
  message : option Message;
  locations : option (list Location);
  partialFingerprints : option (gmap string string);
  fingerprints : option (gmap string string);
  taxa : option (list Taxon)
}.

Record Run := { results : option (list Result) }.

Record Document := {
  version : option string;
  runs : option (list Run)
}.

(** The [{}] defaults of the [.get] calls. *)
Definition empty_region : Region :=
  {| startLine := None; startColumn := None; endLine := None; endColumn := None;
     sourceLanguage := None |}.
Definition empty_artifact : ArtifactLocation := {| art_uri := None |}.
Definition empty_physical : PhysicalLocation :=
  {| artifactLocation := None; region := None |}.
Definition empty_message : Message := {| text := None |}.

End Sarif.

(* ================================================================== *)
(** ** fix_smells.py: [_extract_location] and [parse_sarif] *)

Definition _extract_location (r : Sarif.Result) : option SmellLocation :=
  match default [] (Sarif.locations r) with
  | [] => None
  | l0 :: _ =>
      let phys := default Sarif.empty_physical (Sarif.physicalLocation l0) in
      let art := default Sarif.empty_artifact (Sarif.artifactLocation phys) in
      let reg := default Sarif.empty_region (Sarif.region phys) in
      let u := default "" (Sarif.art_uri art) in
      if String.eqb u "" then None
      else Some {| uri := u;
                   start_line := default 0 (Sarif.startLine reg);
                   start_column := default 0 (Sarif.startColumn reg);
                   end_line := default 0 (Sarif.endLine reg);
                   end_column := default 0 (Sarif.endColumn reg);
                   language := default "" (Sarif.sourceLanguage reg) |}
  end.

(** The body of the inner loop for one result. *)
Definition parse_result (r : Sarif.Result) : list Smell :=
  match _extract_location r with
  | None => []
  | Some loc =>
      [{| rule_id := default "" (Sarif.ruleId r);
          level := default "warning" (Sarif.level r);
          message := default "" (Sarif.text (default Sarif.empty_message (Sarif.message r)));
          location := loc;
          fingerprints := default ∅ (Sarif.partialFingerprints r);
          taxa := map (fun t => default "" (Sarif.taxon_id t)) (default [] (Sarif.taxa r)) |}]
  end.

(** [parse_sarif] once the JSON is loaded; a version mismatch only warns. *)
Definition parse_sarif (d : Sarif.Document) : list Smell :=
  flat_map (fun run => flat_map parse_result (default [] (Sarif.results run)))
    (default [] (Sarif.runs d)).

(* ================================================================== *)
(** ** qlty/model.py, qlty/parser.py and qlty/report.py *)

Module Qlty.

(** [class Severity(IntEnum)] *)
Inductive Severity := ERROR | WARNING | INFO | NONE.

#[global] Instance Severity_eq_dec : EqDecision Severity.
Proof. solve_decision. Defined.

#[global] Instance Severity_countable : Countable Severity.
Proof.
  refine (inj_countable'
    (fun s => match s with ERROR => 3 | WARNING => 2 | INFO => 1 | NONE => 0 end)%nat
    (fun n => match n with 3 => ERROR | 2 => WARNING | 1 => INFO | _ => NONE end)%nat _).
  by intros [].
Defined.

(** [Severity.from_str] *)
Definition from_str (s : string) : Severity :=
  let l := Py.lower s in
  if String.eqb l "error" then ERROR
  else if String.eqb l "warning" then WARNING
  else if String.eqb l "note" then INFO
  else NONE.

(** [SarifIssue]; the [metadata] field (values of type [Any]) is not
    modelled, no claim reads it. *)
Record SarifIssue := {
  rule_id : string;
  level : Severity;
  message : string;
  file_path : string;
  start_line : Z;
  end_line : option Z;
  category : string;
  help_uri : string;
  fingerprints : gmap string string
}.

(** [SarifIssue.rule_category] *)
Definition rule_category (i : SarifIssue) : string :=
  if Py.contains (rule_id i) ":" then List.hd "" (Py.split ":" (rule_id i))
  else "unknown".

(** [if not fingerprints:] on a dict. *)
Definition dict_empty (m : gmap string string) : bool := bool_decide (m = ∅).

(** The loop body of [parse_sarif_file] for one result. *)
Definition parse_result (r : Sarif.Result) : list SarifIssue :=
  let rid := default "unknown" (Sarif.ruleId r) in
  let lvl := from_str (default "note" (Sarif.level r)) in
  let msg := default "" (Sarif.text (default Sarif.empty_message (Sarif.message r))) in
  match default [] (Sarif.locations r) with
  | [] => []
  | l0 :: _ =>
      let phys := default Sarif.empty_physical (Sarif.physicalLocation l0) in
      let art := default Sarif.empty_artifact (Sarif.artifactLocation phys) in
      let fp := default "unknown" (Sarif.art_uri art) in
      let reg := default Sarif.empty_region (Sarif.region phys) in
      let sl := default 0 (Sarif.startLine reg) in
      let el := default sl (Sarif.endLine reg) in
      let fps0 := default ∅ (Sarif.partialFingerprints r) in
      let fps := if dict_empty fps0 then default ∅ (Sarif.fingerprints r) else fps0 in
      [{| rule_id := rid; level := lvl; message := msg; file_path := fp;
          start_line := sl; end_line := Some el; category := ""; help_uri := "";
          fingerprints := fps |}]
  end.

Definition parse_sarif_file (d : Sarif.Document) : list SarifIssue :=
  flat_map (fun run => flat_map parse_result (default [] (Sarif.results run)))
    (default [] (Sarif.runs d)).

(** A [collections.Counter] and [counter[k] += 1]. *)
Definition counter_incr {K} `{Countable K} (m : gmap K nat) (k : K) : gmap K nat :=
  <[k := (default 0 (m !! k) + 1)%nat]> m.

(** [sum(counter.values())] *)
Definition counter_total {K} `{Countable K} (m : gmap K nat) : nat :=
  map_fold (fun _ v acc => v + acc)%nat 0%nat m.

(** [AnalysisReport]; [top_files] and [top_rules] ([most_common(20)])
    are not modelled. *)
Record AnalysisReport := {
  total_issues : nat;
  issues : list SarifIssue;
  by_severity : gmap Severity nat;
  by_rule : gmap string nat;
  by_category : gmap string nat;
  by_file : gmap string nat
}.

Definition count_by {K} `{Countable K} (f : SarifIssue -> K) (l : list SarifIssue) : gmap K nat :=
  fold_left (fun m i => counter_incr m (f i)) l ∅.

(** [analyze_issues] with its three [_populate_*] helpers. *)
Definition analyze_issues (l : list SarifIssue) : AnalysisReport :=
  {| total_issues := length l;
     issues := l;
     by_severity := count_by level l;
     by_rule := count_by rule_id l;
     by_category := count_by rule_category l;
     by_file := count_by file_path l |}.

End Qlty.

(* ================================================================== *)
(** ** fix_smells.py: [main] *)

Inductive Action := Summary | Detail | Plan | Fix | Json | Markdown.

Record Args := {
  scan : bool;
  filters : Filters;
  actions : list Action   (* the action flags given *)
}.

(** The outside world [main] reads: the SARIF file at [root/args.sarif]
    ([None] when it does not exist) and, under [--scan], the outcome of
    [run_qlty_smells] ([None] when it calls [sys.exit(1)], otherwise the
    document it writes to [root/DEFAULT_SARIF]).  [main] is modelled for
    the default [--sarif] path and a priority table already loaded. *)
Record Env := {
  sarif_on_disk : option Sarif.Document;
  qlty_scan : option Sarif.Document
}.

Inductive Outcome :=
  | SysExit (code : Z)
  | Completed (smells : list Smell) (run : list Action).

Definition main (tbl : gmap string Priority) (a : Args) (e : Env) : Outcome :=
  let sarif := if scan a then (match qlty_scan e with
                               | Some d => Some (Some d)
                               | None => None end)
               else Some (sarif_on_disk e) in
  match sarif with
  | None => SysExit 1                       (* exit inside run_qlty_smells *)
  | Some None => SysExit 1                  (* "SARIF not found" *)
  | Some (Some doc) =>
      let smells := filter_smells tbl (parse_sarif doc) (filters a) in
      match smells with
      | [] => SysExit 0                     (* "No smells match the given filters." *)
      | _ => Completed smells (match actions a with [] => [Summary] | acts => acts end)
      end
  end.

(** The process exit status: [main] returning normally exits with 0. *)
Definition exit_status (o : Outcome) : Z :=
  match o with SysExit c => c | Completed _ _ => 0 end.

(* ================================================================== *)
(** ** fix_smells.py: [report_detail], [report_summary] and [report_json] *)

(** The lines [report_detail] prints: a header per file with its number
    of smells, then one line per smell. *)
Inductive DetailLine :=
  | DetailHeader (u : string) (n : nat)
  | DetailItem (s : Smell).

Definition report_detail (smells : list Smell) : list DetailLine :=
  let by_file := group_by_uri smells in
  let len_lt u v := Nat.ltb (length (by_file v)) (length (by_file u)) in
  flat_map (fun u =>
      DetailHeader u (length (by_file u)) ::
      map DetailItem (sort_by start_lt (by_file u)))
    (sort_by len_lt (keys_in_order (map (fun s => uri (location s)) smells))).

(** The [By priority:] section of [report_summary]: the priorities in
    declaration order, each with its non-zero count. *)
Definition summary_by_priority (tbl : gmap string Priority) (smells : list Smell)
    : list (Priority * nat) :=
  flat_map (fun prio =>
      let cnt := length (List.filter (fun s => bool_decide (priority tbl s = prio)) smells) in
      if Nat.eqb cnt 0 then [] else [(prio, cnt)])
    all_priorities.

(** One object of the JSON array. *)
Record JsonRow := {
  j_rule : string;
  j_priority : Priority;
  j_severity_score : Q;
  j_file : string;
  j_start_line : Z;
  j_end_line : Z;
  j_function : string;
  j_message : string;
  j_language : string;
  j_module : string
}.

Definition json_row (tbl : gmap string Priority) (s : Smell) : JsonRow :=
  {| j_rule := rule_short s;
     j_priority := priority tbl s;
     j_severity_score := severity_score tbl s;
     j_file := uri (location s);
     j_start_line := start_line (location s);
     j_end_line := end_line (location s);
     j_function := function_name s;
     j_message := message s;
     j_language := detected_language (location s);
     j_module := module_name (location s) |}.

Definition report_json (tbl : gmap string Priority) (smells : list Smell) : list JsonRow :=
  map (json_row tbl) (sort_by (fix_key_lt tbl) smells).

(* ================================================================== *)
(** ** qlty/runner.py and qlty/main.py *)

(** An issue with its [category] field set. *)
Definition with_category (c : string) (i : Qlty.SarifIssue) : Qlty.SarifIssue :=
  {| Qlty.rule_id := Qlty.rule_id i; Qlty.level := Qlty.level i;
     Qlty.message := Qlty.message i; Qlty.file_path := Qlty.file_path i;
     Qlty.start_line := Qlty.start_line i; Qlty.end_line := Qlty.end_line i;
     Qlty.category := c; Qlty.help_uri := Qlty.help_uri i;
     Qlty.fingerprints := Qlty.fingerprints i |}.

Module QltyRun.

(** [out] is the SARIF document [qlty] printed and the function saved,
    or [None] when its output was blank, it timed out or it could not
    be started (the function then returns []). *)
Definition run_qlty_check (out : option Sarif.Document) : list Qlty.SarifIssue :=
  match out with
  | Some d => Qlty.parse_sarif_file d
  | None => []
  end.

Definition run_qlty_smells (out : option Sarif.Document) : list Qlty.SarifIssue :=
  match out with
  | Some d =>
      map (fun i => if String.eqb (Qlty.category i) "" then with_category "smell" i else i)
        (Qlty.parse_sarif_file d)
  | None => []
  end.

End QltyRun.

Module QltyMain.

(** The parsed command line of [qlty/main.py]; an [append] option that
    was not given is the empty list. *)
Record QArgs := {
  scan : bool;
  type_ : string;
  check : bool;
  smells : bool;
  severity : option string;
  rule : option string;
  category : option string;
  file : option string;
  exclude_rule : list string;
  exclude_category : list string;
  exclude_file : list string;
  summary_only : bool
}.

(** What the collection reads: the [--checks-file] when given and
    present, the [--smells-file] when present, and the output of the two
    [qlty] runs under [--scan]. *)
Record QEnv := {
  checks_file_doc : option Sarif.Document;
  smells_file_doc : option Sarif.Document;
  qlty_check_out : option Sarif.Document;
  qlty_smells_out : option Sarif.Document
}.

Definition _load_checks_from_file (e : QEnv) : option (list Qlty.SarifIssue) :=
  match checks_file_doc e with
  | Some d => Some (map (with_category "check") (Qlty.parse_sarif_file d))
  | None => None
  end.

Definition _collect_smells_issues (a : QArgs) (e : QEnv) : list Qlty.SarifIssue :=
  match smells_file_doc e with
  | Some d =>
      if negb (scan a) then map (with_category "smell") (Qlty.parse_sarif_file d)
      else QltyRun.run_qlty_smells (qlty_smells_out e)
  | None =>
      if scan a then QltyRun.run_qlty_smells (qlty_smells_out e) else []
  end.

Definition _collect_checks_issues (a : QArgs) (e : QEnv) : list Qlty.SarifIssue :=
  if scan a then map (with_category "check") (QltyRun.run_qlty_check (qlty_check_out e))
  else match _load_checks_from_file e with
       | Some cs => cs
       | None => []
       end.

(** The [do_checks] / [do_smells] decision of [_collect_all_issues]. *)
Definition issue_types (a : QArgs) : bool * bool :=
  let do_checks := bool_decide (type_ a ∈ ["checks"; "both"]) in
  let do_smells := bool_decide (type_ a ∈ ["smells"; "both"]) in
  let '(do_checks, do_smells) :=
    if check a then
      (true, if negb (smells a) && String.eqb (type_ a) "" then false else do_smells)
    else (do_checks, do_smells) in
  let '(do_checks, do_smells) :=
    if smells a then
      (if negb (check a) && String.eqb (type_ a) "" then false else do_checks, true)
    else (do_checks, do_smells) in
  if check a || smells a then (check a, smells a) else (do_checks, do_smells).

Definition _collect_all_issues (a : QArgs) (e : QEnv) : list Qlty.SarifIssue :=
  let '(do_checks, do_smells) := issue_types a in
  app (if do_checks then _collect_checks_issues a e else [])
      (if do_smells then _collect_smells_issues a e else []).

Section Filters.

(** [fnmatch.fnmatch(name, pattern)]. *)
Variable fnmatch : string -> string -> bool.

Definition _apply_severity_filter (a : QArgs) (l : list Qlty.SarifIssue) :=
  match truthy (severity a) with
  | Some sv => List.filter (fun i => bool_decide (Qlty.level i = Qlty.from_str sv)) l
  | None => l
  end.

Definition _apply_rule_filter (a : QArgs) (l : list Qlty.SarifIssue) :=
  match truthy (rule a) with
  | Some r => List.filter (fun i => Py.contains (Qlty.rule_id i) r) l
  | None => l
  end.

Definition _apply_category_filter (a : QArgs) (l : list Qlty.SarifIssue) :=
  match truthy (category a) with
  | Some c => List.filter (fun i => Py.contains (Qlty.rule_category i) c) l
  | None => l
  end.

Definition _apply_file_filter (a : QArgs) (l : list Qlty.SarifIssue) :=
  match truthy (file a) with
  | Some p => List.filter (fun i => fnmatch (Qlty.file_path i) p) l
  | None => l
  end.

Definition _apply_exclude_rule_filter (a : QArgs) (l : list Qlty.SarifIssue) :=
  fold_left (fun l r => List.filter (fun i => negb (Py.contains (Qlty.rule_id i) r)) l)
    (exclude_rule a) l.

Definition _apply_exclude_category_filter (a : QArgs) (l : list Qlty.SarifIssue) :=
  fold_left (fun l c => List.filter (fun i => negb (Py.contains (Qlty.rule_category i) c)) l)
    (exclude_category a) l.

Definition _apply_exclude_file_filter (a : QArgs) (l : list Qlty.SarifIssue) :=
  fold_left (fun l p => List.filter (fun i => negb (fnmatch (Qlty.file_path i) p)) l)
    (exclude_file a) l.

(** The filter chain of [main], in its order. *)
Definition apply_filters (a : QArgs) (l : list Qlty.SarifIssue) : list Qlty.SarifIssue :=
  _apply_exclude_file_filter a
    (_apply_exclude_category_filter a
      (_apply_exclude_rule_filter a
        (_apply_file_filter a
          (_apply_category_filter a
            (_apply_rule_filter a
              (_apply_severity_filter a l)))))).

(** What [main] ends with; it returns 0 in every case. *)
Inductive QOutcome :=
  | NoIssues
  | NoMatch
  | Analyzed (r : Qlty.AnalysisReport) (markdown_written : bool).

Definition main (a : QArgs) (e : QEnv) : QOutcome :=
  match _collect_all_issues a e with
  | [] => NoIssues
  | all_issues =>
      match apply_filters a all_issues with
      | [] => NoMatch
      | filtered => Analyzed (Qlty.analyze_issues filtered) (negb (summary_only a))
      end
  end.

End Filters.

End QltyMain.

(* ================================================================== *)
(** ** fix_smells.py: the built-in [attempt_fix] and [load_config] *)

Definition nl : string := String "010"%char "".

(** [_NESTING_PATTERNS]: (pattern, rewrite) per language. *)
Definition _NESTING_PATTERNS : gmap string (string * string) :=
  list_to_map [
    ("rust",
      ("if let Some($X) = $Y { if let Some($Z) = $W { $$$B } }",
       "let Some($X) = $Y else { return; };" ++ nl ++
       "let Some($Z) = $W else { return; };" ++ nl ++ "$$$B"));
    ("python",
      ("if $X:" ++ nl ++ "    if $Y:" ++ nl ++ "        $$$B",
       "if not $X:" ++ nl ++ "    return" ++ nl ++ "if not $Y:" ++ nl ++ "    return" ++ nl ++
       "$$$B"));
    ("javascript",
      ("if ($X) { if ($Y) { $$$B } }",
       "if (!$X) { return; }" ++ nl ++ "if (!$Y) { return; }" ++ nl ++ "$$$B"));
    ("typescript",
      ("if ($X) { if ($Y) { $$$B } }",
       "if (!$X) { return; }" ++ nl ++ "if (!$Y) { return; }" ++ nl ++ "$$$B"));
    ("go",
      ("if $X { if $Y { $$$B } }",
       "if !($X) { return }" ++ nl ++ "if !($Y) { return }" ++ nl ++ "$$$B"))].

Section AstGrep.

(** The exit code of [ast-grep --pattern p --rewrite f --lang l target]
    run in the project root, or [None] when the tool is missing or
    times out. *)
Variable ast_grep : string -> string -> string -> string -> option Z.

Definition _run_ast_grep (pattern_fix : string * string) (target : string)
    (language : string) : bool :=
  let '(pat, fix') := pattern_fix in
  if String.eqb pat "" then false
  else match ast_grep pat fix' language target with
       | Some 0 => true
       | _ => false
       end.

(** [FixStrategy.attempt_fix] of the built-in strategies: only
    [NestedControlFlowStrategy] overrides the default [return False]. *)
Definition builtin_attempt_fix (st : FixStrategy) (smell : Smell) : bool :=
  if String.eqb (st_rule st) "nested-control-flow" then
    let lang := detected_language (location smell) in
    if String.eqb lang "" then false
    else match _NESTING_PATTERNS !! lang with
         | None => false
         | Some pattern => _run_ast_grep pattern (uri (location smell)) lang
         end
  else false.

End AstGrep.

(** The [priorities] object of the configuration, as [(rule, name)]
    pairs in file order, updating the table: an unknown name only warns. *)
Definition load_config_priorities (tbl : gmap string Priority)
    (cfg : list (string * string)) : gmap string Priority :=
  fold_left (fun tbl '(rule, prio_name) =>
      match priority_of_name (Py.upper prio_name) with
      | Some p => <[rule := p]> tbl
      | None => tbl
      end) cfg tbl.

(* ================================================================== *)
(** * Properties *)

(* ------------------------------------------------------------------ *)
(** ** The severity score *)

Example complexity_count_spaces :
  CountRe.search "Function with high complexity (count  =  21)" = Some 21.
Proof. reflexivity. Qed.

Example complexity_count_absent : CountRe.search "Deeply nested control flow (level = 5)" = None.
Proof. reflexivity. Qed.

Example severity_score_sample :
  severity_score RULE_PRIORITY
    {| rule_id := "qlty:function-complexity"; level := "warning";
       message := "Function with high complexity (count = 21)";
       location := {| uri := "crates/foo/src/a.rs"; start_line := 10; start_column := 1;
                      end_line := 19; end_column := 1; language := "" |};
       fingerprints := ∅; taxa := [] |} == 87 # 2.
Proof. reflexivity. Qed.

(** C1: [severity_score] is [(6 − priority ordinal) × 10 + min(span, 100)
    × 0.3 + (complexity count, or 0 when absent) × 0.5], the span being
    [max(1, end_line − start_line + 1)]. *)
Theorem severity_score_formula (tbl : gmap string Priority) (s : Smell) :
  severity_score tbl s =
    (inject_Z ((6 - priority_ord (priority tbl s)) * 10)
    + inject_Z (Z.min (Z.max 1 (end_line (location s) - start_line (location s) + 1)) 100)
      * (3 # 10)
    + inject_Z (match complexity_count s with Some n => n | None => 0 end) * (1 # 2))%Q.
Proof. reflexivity. Qed.

(* ------------------------------------------------------------------ *)
(** ** Priority lookup *)

(** C3: a rule short name missing from the priority table gets [INFO],
    the lowest-urgency tier ([priority] is total). *)
Theorem priority_unknown_rule_is_info (tbl : gmap string Priority) (s : Smell) :
  tbl !! rule_short s = None -> priority tbl s = INFO.
Proof. intros H. unfold priority. by rewrite H. Qed.

Definition unknown_rule_smell : Smell :=
  {| rule_id := "qlty:some-new-rule"; level := "warning"; message := "";
     location := {| uri := "src/app/main.py"; start_line := 3; start_column := 1;
                    end_line := 8; end_column := 1; language := "" |};
     fingerprints := ∅; taxa := [] |}.

Lemma priority_unknown_rule_is_info_witness :
  RULE_PRIORITY !! rule_short unknown_rule_smell = None /\
  priority RULE_PRIORITY unknown_rule_smell = INFO.
Proof.
  split; [reflexivity|].
  apply (priority_unknown_rule_is_info RULE_PRIORITY unknown_rule_smell).
  reflexivity.
Defined.

(* ------------------------------------------------------------------ *)
(** ** Counters of [analyze_issues] *)

Section Counters.
Context {K : Type} `{Countable K}.

Lemma counter_total_empty : Qlty.counter_total (∅ : gmap K nat) = 0%nat.
Proof. unfold Qlty.counter_total. by rewrite map_fold_empty. Qed.

Lemma counter_total_insert_fresh (m : gmap K nat) (k : K) (v : nat) :
  m !! k = None -> Qlty.counter_total (<[k := v]> m) = (v + Qlty.counter_total m)%nat.
Proof.
  intros Hk. unfold Qlty.counter_total.
  rewrite map_fold_insert_L; [done| |done].
  intros; lia.
Qed.

Lemma counter_total_incr (m : gmap K nat) (k : K) :
  Qlty.counter_total (Qlty.counter_incr m k) = S (Qlty.counter_total m).
Proof.
  unfold Qlty.counter_incr.
  destruct (m !! k) as [v|] eqn:Hk; simpl.
  - rewrite <- (insert_delete_id m k v Hk) at 2.
    rewrite <- insert_delete_eq.
    rewrite !counter_total_insert_fresh by apply lookup_delete_eq.
    lia.
  - rewrite counter_total_insert_fresh by done. lia.
Qed.

Lemma counter_total_count_by (f : Qlty.SarifIssue -> K) (l : list Qlty.SarifIssue) :
  Qlty.counter_total (Qlty.count_by f l) = length l.
Proof.
  unfold Qlty.count_by.
  assert (Hgen : forall m, Qlty.counter_total
            (fold_left (fun m i => Qlty.counter_incr m (f i)) l m)
          = (length l + Qlty.counter_total m)%nat).
  { induction l as [|i l IH]; intros m; simpl; [done|].
    rewrite IH, counter_total_incr. lia. }
  rewrite Hgen, counter_total_empty. lia.
Qed.

End Counters.

(** C2: in the report of [analyze_issues], the per-severity, per-rule and
    per-file counts each sum to [total_issues]. *)
Theorem analyze_issues_counts_sum (l : list Qlty.SarifIssue) :
  let r := Qlty.analyze_issues l in
  Qlty.counter_total (Qlty.by_severity r) = Qlty.total_issues r /\
  Qlty.counter_total (Qlty.by_rule r) = Qlty.total_issues r /\
  Qlty.counter_total (Qlty.by_file r) = Qlty.total_issues r.
Proof.
  simpl. rewrite !counter_total_count_by. done.
Qed.

(* ------------------------------------------------------------------ *)
(** ** Results without a file URI *)

(** The file URI of a result's first location as [_extract_location]
    reads it, [""] when the result has no locations or no URI. *)
Definition first_location_uri (r : Sarif.Result) : string :=
  match default [] (Sarif.locations r) with
  | [] => ""
  | l0 :: _ =>
      default "" (Sarif.art_uri (default Sarif.empty_artifact
        (Sarif.artifactLocation (default Sarif.empty_physical (Sarif.physicalLocation l0)))))
  end.

Lemma extract_location_none_iff (r : Sarif.Result) :
  _extract_location r = None <-> first_location_uri r = "".
Proof.
  unfold _extract_location, first_location_uri.
  destruct (default [] (Sarif.locations r)) as [|l0 ls]; [done|].
  cbv zeta. case_match eqn:E.
  - apply String.eqb_eq in E. split; done.
  - apply String.eqb_neq in E. split; done.
Qed.

Lemma extract_location_uri (r : Sarif.Result) (loc : SmellLocation) :
  _extract_location r = Some loc -> uri loc <> "".
Proof.
  unfold _extract_location.
  destruct (default [] (Sarif.locations r)) as [|l0 ls]; [done|].
  cbv zeta. case_match eqn:E; [done|].
  apply String.eqb_neq in E. intros [= <-]. done.
Qed.

(** C10: every parsed smell has a non-empty file URI, and a result is
    dropped exactly when its first location has no URI (missing or [""]),
    which covers the results without locations. *)
Theorem parse_sarif_uri_nonempty :
  (forall (d : Sarif.Document) (s : Smell), In s (parse_sarif d) -> uri (location s) <> "") /\
  (forall r : Sarif.Result, parse_result r = [] <-> first_location_uri r = "").
Proof.
  split.
  - intros d s Hin. unfold parse_sarif in Hin.
    apply in_flat_map in Hin as [run [_ Hin]].
    apply in_flat_map in Hin as [r [_ Hin]].
    unfold parse_result in Hin.
    destruct (_extract_location r) as [loc|] eqn:E; [|done].
    destruct Hin as [<-|[]]. simpl. by eapply extract_location_uri.
  - intros r. rewrite <- extract_location_none_iff. unfold parse_result.
    destruct (_extract_location r); split; done.
Qed.

(* ------------------------------------------------------------------ *)
(** ** Filters *)

Lemma list_filter_comm {A} (p q : A -> bool) (l : list A) :
  List.filter p (List.filter q l) = List.filter q (List.filter p l).
Proof.
  induction l as [|x l IH]; simpl; [done|].
  destruct (q x) eqn:Hq, (p x) eqn:Hp; simpl; rewrite ?Hq, ?Hp, IH; done.
Qed.

Lemma list_filter_true {A} (l : list A) : List.filter (fun _ => true) l = l.
Proof. induction l; simpl; congruence. Qed.

(** A single-argument call of [filter_smells] keeps the smells satisfying
    one predicate of the smell (the identity being the predicate [true]). *)
Lemma filter_single_is_filter (tbl : gmap string Priority) (sf : SingleFilter) :
  exists p : Smell -> bool, forall l, filter_single tbl sf l = List.filter p l.
Proof.
  destruct sf as [v|v|v|v|v|q]; unfold filter_single, filter_smells, single_filters, truthy;
    cbn; try destruct (String.eqb v ""); cbn;
    try destruct (priority_of_name (Py.upper v)); cbn;
    first [ eexists; intros l; reflexivity
          | exists (fun _ => true); intros l; symmetry; apply list_filter_true ].
Qed.

(** C4: two single-predicate calls of [filter_smells] commute. *)
Theorem filter_single_commute (tbl : gmap string Priority) (fa fb : SingleFilter)
    (l : list Smell) :
  filter_single tbl fa (filter_single tbl fb l) = filter_single tbl fb (filter_single tbl fa l).
Proof.
  destruct (filter_single_is_filter tbl fa) as [pa Ha].
  destruct (filter_single_is_filter tbl fb) as [pb Hb].
  rewrite !Ha, !Hb. apply list_filter_comm.
Qed.

Definition python_smell : Smell :=
  {| rule_id := "qlty:function-complexity"; level := "warning";
     message := "Function with high complexity (count = 17)";
     location := {| uri := "scripts/tool.py"; start_line := 4; start_column := 1;
                    end_line := 40; end_column := 1; language := "" |};
     fingerprints := {[ "function.name" := "run" ]}; taxa := [] |}.

(** C9, as stated: the language filter would keep every smell whose
    inferred language contains the filter string. *)
Definition language_filter_is_substring (tbl : gmap string Priority) : Prop :=
  forall (L : string) (l : list Smell) (s : Smell),
    In s (filter_single tbl (ByLanguage L) l) <->
    In s l /\ Py.contains (detected_language (location s)) L = true.

(** C9 fails: the language of [scripts/tool.py] is ["python"], which
    contains ["pyth"], yet [--language pyth] drops the smell. *)
Lemma language_filter_substring_counterexample :
  detected_language (location python_smell) = "python" /\
  Py.contains "python" "pyth" = true /\
  filter_single RULE_PRIORITY (ByLanguage "pyth") [python_smell] = [] /\
  ~ language_filter_is_substring RULE_PRIORITY.
Proof.
  split; [reflexivity|]. split; [reflexivity|]. split; [reflexivity|].
  intros H. destruct (H "pyth" [python_smell] python_smell) as [_ Hback].
  assert (Hin : In python_smell (filter_single RULE_PRIORITY (ByLanguage "pyth") [python_smell])).
  { apply Hback. split; [left; reflexivity | reflexivity]. }
  revert Hin. vm_compute. tauto.
Qed.

(** C9, amended: a non-empty language filter [L] keeps exactly the smells
    whose inferred language equals [L] lowercased, and an empty [L]
    applies no language filter. *)
Theorem language_filter_exact_lower (tbl : gmap string Priority) (L : string)
    (l : list Smell) :
  (L <> "" -> forall s : Smell,
     In s (filter_single tbl (ByLanguage L) l) <->
     In s l /\ detected_language (location s) = Py.lower L) /\
  (L = "" -> filter_single tbl (ByLanguage L) l = l).
Proof.
  unfold filter_single, filter_smells, single_filters, truthy; cbn. split.
  - intros HL s. destruct (String.eqb_spec L "") as [E|_]; [done|].
    rewrite filter_In. by rewrite String.eqb_eq.
  - intros ->. done.
Qed.

Lemma language_filter_exact_lower_witness :
  "Python" <> "" /\
  (In python_smell (filter_single RULE_PRIORITY (ByLanguage "Python") [python_smell]) <->
   In python_smell [python_smell] /\ detected_language (location python_smell) = Py.lower "Python") /\
  filter_single RULE_PRIORITY (ByLanguage "") [python_smell] = [python_smell].
Proof.
  split; [discriminate|]. split.
  - exact (proj1 (language_filter_exact_lower RULE_PRIORITY "Python" [python_smell])
             ltac:(discriminate) python_smell).
  - exact (proj2 (language_filter_exact_lower RULE_PRIORITY "" [python_smell]) eq_refl).
Defined.

(* ------------------------------------------------------------------ *)
(** ** Order of the auto-fix run *)

Section SortProps.
Context {A : Type} (lt : A -> A -> bool) (R : A -> A -> Prop).
Hypothesis R_of_not_lt : forall x y, lt y x = false -> R x y.
Hypothesis R_of_lt : forall x y, lt y x = true -> R y x.

Lemma insert_by_perm (x : A) (l : list A) : Permutation (insert_by lt x l) (x :: l).
Proof.
  induction l as [|y l IH]; simpl; [done|].
  destruct (lt y x); [|done].
  rewrite IH. apply perm_swap.
Qed.

Lemma sort_by_perm (l : list A) : Permutation (sort_by lt l) l.
Proof.
  induction l as [|x l IH]; simpl; [done|].
  rewrite insert_by_perm, IH. done.
Qed.

Lemma insert_by_hdrel (x y : A) (l : list A) :
  HdRel R y l -> R y x -> HdRel R y (insert_by lt x l).
Proof.
  intros Hh Hyx. destruct l as [|z l]; simpl; [by constructor|].
  destruct (lt z x); constructor; [by inversion Hh | done].
Qed.

Lemma insert_by_sorted (x : A) (l : list A) :
  Sorted R l -> Sorted R (insert_by lt x l).
Proof.
  induction l as [|y l IH]; intros Hs; simpl; [by repeat constructor|].
  destruct (lt y x) eqn:Hyx.
  - inversion Hs as [|? ? Hs' Hh]; subst.
    constructor; [by apply IH|].
    apply insert_by_hdrel; [done|]. by apply R_of_lt.
  - constructor; [done|]. constructor. by apply R_of_not_lt.
Qed.

Lemma sort_by_sorted (l : list A) : Sorted R (sort_by lt l).
Proof.
  induction l as [|x l IH]; simpl; [constructor|].
  by apply insert_by_sorted.
Qed.

End SortProps.

(** The order [apply_fixes] follows: descending severity score, and
    ascending file path between equal scores. *)
Definition fix_order_le (tbl : gmap string Priority) (x y : Smell) : Prop :=
  (severity_score tbl y < severity_score tbl x)%Q \/
  ((severity_score tbl x == severity_score tbl y)%Q /\
   String.compare (uri (location x)) (uri (location y)) <> Gt).

Lemma fix_order_of_not_lt (tbl : gmap string Priority) (x y : Smell) :
  fix_key_lt tbl y x = false -> fix_order_le tbl x y.
Proof.
  unfold fix_key_lt, fix_order_le.
  intros H. apply orb_false_iff in H as [H1 H2].
  apply negb_false_iff, Qle_bool_iff in H1.
  apply Qle_lteq in H1 as [Hlt|Heq]; [by left|right].
  split; [by symmetry|].
  rewrite (proj2 (Qeq_bool_iff _ _) Heq) in H2. cbn in H2.
  rewrite String.compare_antisym.
  destruct (String.compare (uri (location y)) (uri (location x))); done.
Qed.

Lemma fix_order_of_lt (tbl : gmap string Priority) (x y : Smell) :
  fix_key_lt tbl y x = true -> fix_order_le tbl y x.
Proof.
  unfold fix_key_lt, fix_order_le.
  intros H. apply orb_true_iff in H as [H|H].
  - left. apply negb_true_iff in H. apply Qnot_le_lt.
    intros Hle. apply Qle_bool_iff in Hle. congruence.
  - apply andb_true_iff in H as [Heq Hc]. apply Qeq_bool_iff in Heq.
    right. split; [done|].
    destruct (String.compare (uri (location y)) (uri (location x))); done.
Qed.

(** C6, amended: [apply_fixes] attempts exactly the smells whose strategy
    is auto-fixable, in descending severity score, ties by file path. *)
Theorem apply_fixes_selection_order (tbl : gmap string Priority)
    (reg : gmap string FixStrategy) (attempt_fix : FixStrategy -> Smell -> bool)
    (smells : list Smell) :
  let order := attempted (apply_fixes tbl reg attempt_fix smells) in
  Permutation order (List.filter (is_auto_fixable reg) smells) /\
  Sorted (fix_order_le tbl) order.
Proof.
  cbn. split.
  - apply sort_by_perm.
  - apply sort_by_sorted; [apply fix_order_of_not_lt | apply fix_order_of_lt].
Qed.

(** C6 as stated: every smell of a better tier is attempted before any
    smell of a worse tier. *)
Definition priority_first_order (tbl : gmap string Priority) (order : list Smell) : Prop :=
  forall (i j : nat) (x y : Smell),
    order !! i = Some x -> order !! j = Some y ->
    priority_ord (priority tbl x) < priority_ord (priority tbl y) -> (i < j)%nat.

(** A [boolean-logic] smell (tier LOW) spanning 100 lines scores 50,
    a one-line [nested-control-flow] smell (tier MEDIUM) scores 30.3. *)
Definition low_tier_long : Smell :=
  {| rule_id := "qlty:boolean-logic"; level := "warning"; message := "Complex boolean logic";
     location := {| uri := "src/app/rules.py"; start_line := 1; start_column := 1;
                    end_line := 100; end_column := 1; language := "" |};
     fingerprints := ∅; taxa := [] |}.

Definition medium_tier_short : Smell :=
  {| rule_id := "qlty:nested-control-flow"; level := "warning";
     message := "Deeply nested control flow (level = 5)";
     location := {| uri := "src/app/rules.py"; start_line := 120; start_column := 1;
                    end_line := 120; end_column := 1; language := "" |};
     fingerprints := ∅; taxa := [] |}.

Lemma apply_fixes_priority_order_counterexample :
  priority RULE_PRIORITY low_tier_long = LOW /\
  priority RULE_PRIORITY medium_tier_short = MEDIUM /\
  attempted (apply_fixes RULE_PRIORITY STRATEGY_REGISTRY (fun _ _ => false)
               [medium_tier_short; low_tier_long]) = [low_tier_long; medium_tier_short] /\
  ~ priority_first_order RULE_PRIORITY
      (attempted (apply_fixes RULE_PRIORITY STRATEGY_REGISTRY (fun _ _ => false)
                    [medium_tier_short; low_tier_long])).
Proof.
  assert (Hord : attempted (apply_fixes RULE_PRIORITY STRATEGY_REGISTRY (fun _ _ => false)
               [medium_tier_short; low_tier_long]) = [low_tier_long; medium_tier_short])
    by (vm_compute; reflexivity).
  split; [reflexivity|]. split; [reflexivity|]. split; [exact Hord|].
  rewrite Hord. intros H.
  specialize (H 1%nat 0%nat medium_tier_short low_tier_long eq_refl eq_refl).
  assert (Hp : priority_ord (priority RULE_PRIORITY medium_tier_short)
               < priority_ord (priority RULE_PRIORITY low_tier_long)) by (vm_compute; reflexivity).
  specialize (H Hp). lia.
Qed.

(* ------------------------------------------------------------------ *)
(** ** A region without an end line *)

Definition region_without_end : Sarif.Region :=
  {| Sarif.startLine := Some 12; Sarif.startColumn := Some 5; Sarif.endLine := None;
     Sarif.endColumn := None; Sarif.sourceLanguage := None |}.

Definition result_without_end : Sarif.Result :=
  {| Sarif.ruleId := Some "qlty:function-complexity";
     Sarif.level := Some "warning";
     Sarif.message := Some {| Sarif.text := Some "Function with high complexity (count = 18)" |};
     Sarif.locations := Some [
       {| Sarif.physicalLocation := Some
            {| Sarif.artifactLocation := Some {| Sarif.art_uri := Some "src/app/main.py" |};
               Sarif.region := Some region_without_end |} |}];
     Sarif.partialFingerprints := None;
     Sarif.fingerprints := None;
     Sarif.taxa := None |}.

Definition document_without_end : Sarif.Document :=
  {| Sarif.version := Some "2.1.0";
     Sarif.runs := Some [{| Sarif.results := Some [result_without_end] |}] |}.

(** C7: for a region with [startLine] 12 and no [endLine], the location
    built by [parse_sarif] in fix_smells.py has end line 0, while the
    sibling parser of qlty/parser.py gives end line 12. *)
Theorem parse_sarif_missing_end_line :
  map (fun s => (start_line (location s), end_line (location s)))
      (parse_sarif document_without_end) = [(12, 0)] /\
  map (fun i => (Qlty.start_line i, Qlty.end_line i))
      (Qlty.parse_sarif_file document_without_end) = [(12, Some 12)].
Proof. split; reflexivity. Qed.

(* ------------------------------------------------------------------ *)
(** ** Exit status of [main] *)

Definition args_default : Args :=
  {| scan := false; filters := no_filters; actions := [] |}.

Definition document_without_results : Sarif.Document :=
  {| Sarif.version := Some "2.1.0"; Sarif.runs := Some [{| Sarif.results := Some [] |}] |}.

Definition env_no_findings : Env :=
  {| sarif_on_disk := Some document_without_results; qlty_scan := None |}.

(** C8 fails: a findings file with no results leaves no smell to analyse,
    yet [main] exits with status 0. *)
Lemma main_no_smells_exit_zero :
  filter_smells RULE_PRIORITY (parse_sarif document_without_results) no_filters = [] /\
  main RULE_PRIORITY args_default env_no_findings = SysExit 0 /\
  exit_status (main RULE_PRIORITY args_default env_no_findings) <> 1.
Proof. split; [reflexivity|]. split; [reflexivity|]. discriminate. Qed.

(** C8, amended: [main] exits with 1 exactly when no findings document
    can be read (the file is missing without [--scan], or the scan
    fails), and with 0 whenever a document is read, whether or not smells
    remain after the filters. *)
Theorem main_exit_status (tbl : gmap string Priority) (a : Args) (e : Env) :
  exit_status (main tbl a e) =
    match (if scan a then qlty_scan e else sarif_on_disk e) with
    | Some _ => 0
    | None => 1
    end.
Proof.
  unfold main.
  destruct (scan a); [destruct (qlty_scan e) as [d|]|destruct (sarif_on_disk e) as [d|]];
    cbn; try reflexivity;
    destruct (filter_smells tbl (parse_sarif d) (filters a)); reflexivity.
Qed.

(* ================================================================== *)
(** * Further properties of the code *)

(* ------------------------------------------------------------------ *)
(** ** [str.split] and the rule short name *)

(** [c] does not occur in [s]. *)
Fixpoint char_free (c : ascii) (s : string) : bool :=
  match s with
  | EmptyString => true
  | String a r => negb (Ascii.eqb a c) && char_free c r
  end.

Lemma split_nonempty (c : ascii) (s : string) : Py.split c s <> [].
Proof.
  destruct s as [|a r]; simpl; [done|].
  destruct (Ascii.eqb a c); [done|]. destruct (Py.split c r); done.
Qed.

Lemma split_char_free (c : ascii) (s : string) :
  Forall (fun p => char_free c p = true) (Py.split c s).
Proof.
  induction s as [|a r IH]; simpl; [by repeat constructor|].
  destruct (Ascii.eqb a c) eqn:E.
  - constructor; [done|exact IH].
  - destruct (Py.split c r) as [|p ps]; [by repeat constructor; simpl; rewrite E|].
    inversion IH as [|? ? Hp Hps]; subst.
    constructor; [|done]. simpl. by rewrite E, Hp.
Qed.

Lemma split_free (c : ascii) (s : string) : char_free c s = true -> Py.split c s = [s].
Proof.
  induction s as [|a r IH]; simpl; [done|].
  intros H. apply andb_true_iff in H as [Ha Hr]. apply negb_true_iff in Ha.
  rewrite Ha, IH by done. done.
Qed.

Lemma last_cons_nonempty {A} (x : A) (l : list A) (d : A) :
  l <> [] -> List.last (x :: l) d = List.last l d.
Proof. destruct l; [done|]. done. Qed.

Lemma split_app_sep (c : ascii) (s1 s2 : string) :
  exists ps, Py.split c (s1 ++ String c s2) = app ps (Py.split c s2) /\ ps <> [].
Proof.
  induction s1 as [|a r IH]; simpl.
  - rewrite Ascii.eqb_refl. exists [""]. done.
  - destruct IH as [ps [Heq Hne]]. rewrite Heq.
    destruct (Ascii.eqb a c).
    + exists ("" :: ps). done.
    + destruct ps as [|p ps]; [done|]. exists (String a p :: ps). done.
Qed.

Lemma last_app_nonempty {A} (l1 l2 : list A) (d : A) :
  l2 <> [] -> List.last (app l1 l2) d = List.last l2 d.
Proof.
  intros H. induction l1 as [|x l1 IH]; simpl; [done|].
  rewrite <- IH. destruct (app l1 l2) eqn:E; [|done].
  apply app_eq_nil in E as [_ ->]. done.
Qed.

Lemma last_forall {A} (P : A -> Prop) (l : list A) (d : A) :
  Forall P l -> P d -> P (List.last l d).
Proof.
  intros Hl Hd. induction Hl as [|x l Hx Hl IH]; [done|].
  destruct l; [done|]. exact IH.
Qed.

Lemma rule_short_char_free (s : Smell) : char_free ":" (rule_short s) = true.
Proof. unfold rule_short. apply last_forall; [apply split_char_free|done]. Qed.

(** A rule short name never contains a colon, and the rule short name of
    [ns ++ ":" ++ r] is [r] when [r] has no colon. *)
Theorem rule_short_namespaced (s : Smell) :
  char_free ":" (rule_short s) = true /\
  (forall ns r, char_free ":" r = true -> rule_id s = ns ++ ":" ++ r -> rule_short s = r).
Proof.
  split; [apply rule_short_char_free|].
  intros ns r Hr Hid. unfold rule_short. rewrite Hid.
  change (":" ++ r) with (String ":" r).
  destruct (split_app_sep ":" ns r) as [ps [-> _]].
  rewrite last_app_nonempty by apply split_nonempty.
  by rewrite split_free.
Qed.

Lemma append_sep_inj (c : ascii) (x y x' y' : string) :
  char_free c x = true -> char_free c x' = true ->
  x ++ String c y = x' ++ String c y' -> x = x' /\ y = y'.
Proof.
  revert x'. induction x as [|a x IH]; intros [|a' x'] Hx Hx' H; simpl in *.
  - injection H. done.
  - injection H as -> _. rewrite Ascii.eqb_refl in Hx'. done.
  - injection H as -> _. rewrite Ascii.eqb_refl in Hx. done.
  - injection H as -> H.
    apply andb_true_iff in Hx as [_ Hx]. apply andb_true_iff in Hx' as [_ Hx'].
    destruct (IH x' Hx Hx' H) as [-> ->]. done.
Qed.

(** The part of the de-duplication key after the colon. *)
Definition plan_fn (s : Smell) : string :=
  if String.eqb (function_name s) "" then "file" else function_name s.

(** The Plan view's de-duplication key [f"{rule_short}:{fn}"] identifies
    the pair (rule short name, function or ["file"]): equal keys come
    only from equal pairs. *)
Theorem plan_key_injective (a b : Smell) :
  plan_key a = plan_key b <-> rule_short a = rule_short b /\ plan_fn a = plan_fn b.
Proof.
  unfold plan_key. fold (plan_fn a) (plan_fn b).
  change (":" ++ plan_fn a) with (String ":" (plan_fn a)).
  change (":" ++ plan_fn b) with (String ":" (plan_fn b)).
  split.
  - apply append_sep_inj; apply rule_short_char_free.
  - intros [-> ->]. done.
Qed.

(* ------------------------------------------------------------------ *)
(** ** The complexity count and the severity score *)

Fixpoint all_digits (s : string) : bool :=
  match s with
  | EmptyString => true
  | String c r => Py.is_digit c && all_digits r
  end.

Lemma take_digits_all (s : string) : all_digits (CountRe.take_digits s) = true.
Proof.
  induction s as [|c r IH]; simpl; [done|].
  destruct (Py.is_digit c) eqn:E; simpl; [by rewrite E, IH|done].
Qed.

Lemma digits_value_nonneg (ds : string) (acc : Z) :
  all_digits ds = true -> 0 <= acc -> 0 <= Py.digits_value acc ds.
Proof.
  revert acc. induction ds as [|c r IH]; intros acc Hd Ha; simpl in *; [done|].
  apply andb_true_iff in Hd as [Hc Hr]. apply IH; [done|].
  unfold Py.is_digit in Hc. apply andb_true_iff in Hc as [Hc _].
  apply Nat.leb_le in Hc. lia.
Qed.

Lemma match_at_spec (s : string) (n : Z) :
  CountRe.match_at s = Some n -> Py.startswith s "count" = true /\ 0 <= n.
Proof.
  unfold CountRe.match_at. destruct (Py.startswith s "count") eqn:Hs; [|done].
  destruct (CountRe.skip_ws _) as [|c r]; [done|].
  destruct (Ascii.eqb c "=") eqn:Hc;
    [apply Ascii.eqb_eq in Hc; subst c|destruct c as [[] [] [] [] [] [] [] []]; done].
  pose proof (take_digits_all (CountRe.skip_ws r)) as Hd.
  destruct (CountRe.take_digits (CountRe.skip_ws r)) as [|d ds] eqn:E; [done|].
  intros [= <-]. split; [done|]. exact (digits_value_nonneg (String d ds) 0 Hd ltac:(lia)).
Qed.

Lemma count_search_spec (m : string) (n : Z) :
  CountRe.search m = Some n -> Py.contains m "count" = true /\ 0 <= n.
Proof.
  induction m as [|c r IH]; intros H.
  - discriminate.
  - cbn [CountRe.search] in H. destruct (CountRe.match_at (String c r)) eqn:E.
    + injection H as <-. apply match_at_spec in E as [Hs Hn].
      cbn [Py.contains]. rewrite Hs. done.
    + destruct (IH H) as [Hc Hn]. split; [|done].
      cbn [Py.contains]. rewrite Hc. apply orb_true_r.
Qed.

(** [complexity_count] only reports a count when the message contains
    ["count"], and the count is never negative. *)
Theorem complexity_count_spec (s : Smell) (n : Z) :
  complexity_count s = Some n ->
  Py.contains (message s) "count" = true /\ 0 <= n.
Proof. unfold complexity_count. apply count_search_spec. Qed.

Lemma severity_score_fraction (tbl : gmap string Priority) (s : Smell) :
  (severity_score tbl s ==
     inject_Z (100 * ((6 - priority_ord (priority tbl s)) * 10)
               + 30 * Z.min (line_count (location s)) 100
               + 50 * match complexity_count s with Some n => n | None => 0 end) / 100)%Q.
Proof.
  unfold severity_score.
  generalize ((6 - priority_ord (priority tbl s)) * 10) as b.
  generalize (Z.min (line_count (location s)) 100) as sp.
  generalize (match complexity_count s with Some n => n | None => 0 end) as cc.
  intros cc sp b.
  rewrite !inject_Z_plus, !inject_Z_mult. field.
Qed.

Lemma Q_div100_le (x y : Z) : x <= y -> (inject_Z x / 100 <= inject_Z y / 100)%Q.
Proof.
  intros H. unfold Qdiv. apply Qmult_le_compat_r; [by rewrite <- Zle_Qle|done].
Qed.

(** The severity score is at least the tier base plus 0.3 (a span of at
    least one line), and at most the tier base plus 30 when the message
    carries no complexity count. *)
Theorem severity_score_bounds (tbl : gmap string Priority) (s : Smell) :
  (inject_Z ((6 - priority_ord (priority tbl s)) * 10) + (3 # 10) <= severity_score tbl s)%Q /\
  (complexity_count s = None ->
   severity_score tbl s <= inject_Z ((6 - priority_ord (priority tbl s)) * 10) + 30)%Q.
Proof.
  rewrite severity_score_fraction.
  assert (Hlc : 1 <= line_count (location s)) by (unfold line_count; lia).
  set (b := (6 - priority_ord (priority tbl s)) * 10).
  split.
  - assert (Hcc : 0 <= match complexity_count s with Some n => n | None => 0 end).
    { destruct (complexity_count s) eqn:E; [|done].
      apply count_search_spec in E. lia. }
    setoid_replace (inject_Z b + (3 # 10))%Q with (inject_Z (100 * b + 30) / 100)%Q using relation Qeq
      by (rewrite inject_Z_plus, inject_Z_mult; field).
    apply Q_div100_le. lia.
  - intros ->.
    setoid_replace (inject_Z b + 30)%Q with (inject_Z (100 * b + 3000) / 100)%Q using relation Qeq
      by (rewrite inject_Z_plus, inject_Z_mult; field).
    apply Q_div100_le. lia.
Qed.

Lemma severity_score_tier_diff (tbl : gmap string Priority) (a b : Smell) :
  location a = location b -> message a = message b ->
  (severity_score tbl a ==
     severity_score tbl b
     + inject_Z (10 * (priority_ord (priority tbl b) - priority_ord (priority tbl a))))%Q.
Proof.
  intros Hl Hm. unfold severity_score, complexity_count. rewrite Hl, Hm.
  generalize (priority_ord (priority tbl a)) as pa.
  generalize (priority_ord (priority tbl b)) as pb. intros pb pa.
  assert (Hb : inject_Z ((6 - pa) * 10) = inject_Z ((6 - pb) * 10 + 10 * (pb - pa)))
    by (f_equal; ring).
  rewrite Hb, inject_Z_plus. ring.
Qed.

(** Of two smells at the same location with the same message, the one of
    the better (or the same) priority tier never has the lower score. *)
Theorem severity_score_priority_monotone (tbl : gmap string Priority) (a b : Smell) :
  location a = location b -> message a = message b ->
  priority_ord (priority tbl a) <= priority_ord (priority tbl b) ->
  (severity_score tbl b <= severity_score tbl a)%Q.
Proof.
  intros Hl Hm Hle. rewrite (severity_score_tier_diff tbl a b Hl Hm).
  rewrite <- (Qplus_0_r (severity_score tbl b)) at 1.
  apply Qplus_le_compat; [apply Qle_refl|].
  change 0%Q with (inject_Z 0). rewrite <- Zle_Qle. lia.
Qed.

(* ------------------------------------------------------------------ *)
(** ** Composition of the filters *)

Lemma list_filter_sublist {A} (p : A -> bool) (l : list A) : List.filter p l `sublist_of` l.
Proof.
  induction l as [|x l IH]; simpl; [done|].
  destruct (p x); [by apply sublist_skip | by apply sublist_cons].
Qed.

(** [filter_smells] returns a sub-sequence of its input: it keeps the
    relative order and never adds or repeats a smell. *)
Theorem filter_smells_sublist (tbl : gmap string Priority) (l : list Smell) (f : Filters) :
  filter_smells tbl l f `sublist_of` l.
Proof.
  assert (Hs : forall (p : Smell -> bool) l1, l1 `sublist_of` l ->
            List.filter p l1 `sublist_of` l).
  { intros p l1 H. etrans; [apply list_filter_sublist|exact H]. }
  unfold filter_smells; cbv zeta.
  destruct (truthy (file_filter f)), (truthy (rule_filter f)),
    (truthy (module_filter f)), (truthy (language_filter f)),
    (truthy (priority_filter f)) as [pf|]; try destruct (priority_of_name (Py.upper pf));
    destruct (min_severity f);
    repeat apply Hs; reflexivity.
Qed.

(** The priority block of [filter_smells]. *)
Definition step_priority (tbl : gmap string Priority) (o : option string) (out : list Smell) :=
  match truthy o with
  | Some pf =>
      match priority_of_name (Py.upper pf) with
      | Some prio => List.filter (fun s => bool_decide (priority tbl s = prio)) out
      | None => out
      end
  | None => out end.

Lemma upper_lower_char (c : ascii) : Py.upper_char (Py.lower_char c) = Py.upper_char c.
Proof. destruct c as [[] [] [] [] [] [] [] []]; reflexivity. Qed.

Lemma upper_lower (s : string) : Py.upper (Py.lower s) = Py.upper s.
Proof.
  induction s as [|c r IH]; [done|].
  unfold Py.upper, Py.lower in *. cbn. by rewrite upper_lower_char, IH.
Qed.

Lemma lower_empty (s : string) : String.eqb (Py.lower s) "" = String.eqb s "".
Proof. by destruct s. Qed.

(** The priority filter ignores letter case, and a name that is not a
    priority leaves the list unchanged (only a warning is printed). *)
Theorem priority_filter_case_and_unknown (tbl : gmap string Priority) (v : string)
    (l : list Smell) :
  filter_single tbl (ByPriority (Py.lower v)) l = filter_single tbl (ByPriority v) l /\
  (priority_of_name (Py.upper v) = None -> filter_single tbl (ByPriority v) l = l).
Proof.
  change (filter_single tbl (ByPriority ?w) l) with (step_priority tbl (Some w) l).
  unfold step_priority, truthy.
  rewrite lower_empty. destruct (String.eqb v ""); [done|].
  cbv beta iota. rewrite upper_lower. split; [done|].
  intros H. by rewrite H.
Qed.

(* ------------------------------------------------------------------ *)
(** ** Counters of [apply_fixes] *)

Lemma length_filter_negb {A} (p : A -> bool) (l : list A) :
  (length (List.filter p l) + length (List.filter (fun x => negb (p x)) l))%nat = length l.
Proof. induction l as [|x l IH]; simpl; [done|]. destruct (p x); simpl; lia. Qed.

Lemma length_filter_le {A} (p : A -> bool) (l : list A) :
  (length (List.filter p l) <= length l)%nat.
Proof. induction l as [|x l IH]; simpl; [done|]. destruct (p x); simpl; lia. Qed.

(** The three counters printed by [apply_fixes] (fixed, skipped, manual
    review) add up to the number of smells it was given, and fixed plus
    skipped is the number of auto-fixable smells. *)
Theorem apply_fixes_counts (tbl : gmap string Priority) (reg : gmap string FixStrategy)
    (attempt_fix : FixStrategy -> Smell -> bool) (smells : list Smell) :
  let r := apply_fixes tbl reg attempt_fix smells in
  (n_fixed r + n_skipped r = length (List.filter (is_auto_fixable reg) smells))%nat /\
  (n_fixed r + n_skipped r + n_manual r = length smells)%nat.
Proof.
  cbn. rewrite length_filter_negb.
  pose proof (Permutation_length (sort_by_perm (fix_key_lt tbl)
                (List.filter (is_auto_fixable reg) smells))) as Hp.
  pose proof (length_filter_le (is_auto_fixable reg) smells).
  split; lia.
Qed.

(* ------------------------------------------------------------------ *)
(** ** Grouping: every smell lands in exactly one group *)

Lemma list_filter_complement {A} (p : A -> bool) (l : list A) :
  Permutation (app (List.filter p l) (List.filter (fun x => negb (p x)) l)) l.
Proof.
  induction l as [|x l IH]; simpl; [done|].
  destruct (p x); simpl; [by constructor|].
  rewrite <- Permutation_middle. by constructor.
Qed.

Lemma flat_map_ext_in {A B} (f g : A -> list B) (l : list A) :
  (forall a, In a l -> f a = g a) -> flat_map f l = flat_map g l.
Proof.
  induction l as [|x l IH]; simpl; [done|]. intros H.
  rewrite H by (by left). f_equal. apply IH. intros a Ha. apply H. by right.
Qed.

Lemma flat_map_perm_keys {A B} (f : A -> list B) (l1 l2 : list A) :
  Permutation l1 l2 -> Permutation (flat_map f l1) (flat_map f l2).
Proof.
  induction 1 as [|x l1 l2 _ IH|x y l|l1 l2 l3 _ IH1 _ IH2]; simpl.
  - done.
  - by apply Permutation_app_head.
  - rewrite !app_assoc. apply Permutation_app_tail, Permutation_app_comm.
  - by etrans.
Qed.

Lemma flat_map_perm_pointwise {A B} (f g : A -> list B) (l : list A) :
  (forall a, Permutation (f a) (g a)) -> Permutation (flat_map f l) (flat_map g l).
Proof.
  intros H. induction l as [|x l IH]; simpl; [done|]. by apply Permutation_app.
Qed.

Lemma list_filter_filter_neq {A K} `{EqDecision K} (f : A -> K) (k u : K) (l : list A) :
  u <> k ->
  List.filter (fun x => bool_decide (f x = u))
    (List.filter (fun x => negb (bool_decide (f x = k))) l) =
  List.filter (fun x => bool_decide (f x = u)) l.
Proof.
  intros Hne. induction l as [|x l IH]; simpl; [done|].
  destruct (decide (f x = k)) as [Hk|Hk].
  - rewrite (bool_decide_eq_true_2 _ Hk). simpl.
    rewrite bool_decide_eq_false_2 by congruence. exact IH.
  - rewrite (bool_decide_eq_false_2 _ Hk). simpl.
    destruct (bool_decide (f x = u)); [by f_equal|exact IH].
Qed.

(** Splitting a list by a key, over duplicate-free keys that cover every
    element, loses and repeats nothing. *)
Lemma flat_map_filter_partition {A K} `{EqDecision K} (f : A -> K)
    (keys : list K) (l : list A) :
  NoDup keys -> (forall x, In x l -> In (f x) keys) ->
  Permutation (flat_map (fun k => List.filter (fun x => bool_decide (f x = k)) l) keys) l.
Proof.
  revert l. induction keys as [|k ks IH]; intros l Hnd Hcov; simpl.
  - destruct l as [|x l]; [done|]. exfalso. apply (Hcov x). by left.
  - apply NoDup_cons in Hnd as [Hk Hnd].
    rewrite (flat_map_ext_in _
      (fun u => List.filter (fun x => bool_decide (f x = u))
                  (List.filter (fun x => negb (bool_decide (f x = k))) l))).
    2:{ intros u Hu. symmetry. apply list_filter_filter_neq.
        intros ->. apply Hk. by apply list_elem_of_In. }
    rewrite IH; [apply list_filter_complement|done|].
    intros x Hx. apply filter_In in Hx as [Hx Hnk].
    apply negb_true_iff, bool_decide_eq_false in Hnk.
    destruct (Hcov x Hx) as [Heq|Hin]; [congruence|exact Hin].
Qed.

Lemma keys_in_order_go (l acc : list string) :
  NoDup acc ->
  NoDup (fold_left (fun acc k => if bool_decide (k ∈ acc) then acc else app acc [k]) l acc) /\
  (forall x, In x (fold_left (fun acc k => if bool_decide (k ∈ acc) then acc else app acc [k]) l acc)
             <-> In x acc \/ In x l).
Proof.
  revert acc. induction l as [|k l IH]; intros acc Hnd; simpl.
  - split; [done|]. intros x. split; [by left|]. by intros [H|[]].
  - case_bool_decide as Hk.
    + destruct (IH acc Hnd) as [H1 H2]. split; [done|].
      intros x. rewrite H2. apply list_elem_of_In in Hk.
      split; [tauto|]. intros [H|[->|H]]; tauto.
    + assert (Hnd' : NoDup (app acc [k])).
      { apply NoDup_app. split; [done|]. split; [|apply NoDup_singleton].
        intros x Hx Hx'. apply list_elem_of_singleton in Hx' as ->. done. }
      destruct (IH _ Hnd') as [H1 H2]. split; [done|].
      intros x. rewrite H2, in_app_iff. simpl. tauto.
Qed.

Lemma keys_in_order_spec (l : list string) :
  NoDup (keys_in_order l) /\ (forall x, In x (keys_in_order l) <-> In x l).
Proof.
  destruct (keys_in_order_go l [] (NoDup_nil_2)) as [H1 H2].
  split; [exact H1|]. intros x. unfold keys_in_order. rewrite H2. simpl. tauto.
Qed.

Lemma group_by_uri_bool_decide (items : list Smell) (u : string) :
  group_by_uri items u =
  List.filter (fun s => bool_decide (uri (location s) = u)) items.
Proof.
  unfold group_by_uri. apply filter_ext. intros s.
  destruct (String.eqb_spec (uri (location s)) u); by case_bool_decide.
Qed.

(** Grouping by file path, over the paths in first-seen order, sorted by
    any order: every smell of [items] in exactly one group. *)
Lemma group_by_uri_partition (items : list Smell) (lt : string -> string -> bool) :
  Permutation
    (flat_map (group_by_uri items) (sort_by lt (keys_in_order (map (fun s => uri (location s)) items))))
    items.
Proof.
  etrans; [apply flat_map_perm_keys, sort_by_perm|].
  destruct (keys_in_order_spec (map (fun s => uri (location s)) items)) as [Hnd Hin].
  rewrite (flat_map_ext_in _ (fun u => List.filter (fun s => bool_decide (uri (location s) = u)) items))
    by (intros; apply group_by_uri_bool_decide).
  apply flat_map_filter_partition; [done|].
  intros x Hx. apply Hin. exact (in_map (fun s => uri (location s)) _ _ Hx).
Qed.

Lemma all_priorities_NoDup : NoDup all_priorities.
Proof. unfold all_priorities. repeat constructor; set_solver. Qed.

Lemma all_priorities_In (p : Priority) : In p all_priorities.
Proof. destruct p; simpl; tauto. Qed.

(* ------------------------------------------------------------------ *)
(** ** [report_plan] lists every smell once *)

(** The smells a plan mentions, as guidance or as an [Also at] line. *)
Definition plan_smells (ls : list PlanLine) : list Smell :=
  flat_map (fun ln => match ln with Guidance s | AlsoAt s => [s] | _ => [] end) ls.

Lemma plan_smells_app (l1 l2 : list PlanLine) :
  plan_smells (app l1 l2) = app (plan_smells l1) (plan_smells l2).
Proof. apply flat_map_app. Qed.

Lemma plan_smells_flat_map {A} (g : A -> list PlanLine) (l : list A) :
  plan_smells (flat_map g l) = flat_map (fun x => plan_smells (g x)) l.
Proof.
  induction l as [|x l IH]; simpl; [done|]. by rewrite plan_smells_app, IH.
Qed.

Lemma plan_file_smells (seen : list string) (fs : list Smell) :
  plan_smells (plan_file seen fs) = fs.
Proof.
  revert seen. induction fs as [|s fs IH]; intros seen; simpl; [done|].
  case_bool_decide; simpl; by rewrite IH.
Qed.

Lemma plan_prio_smells (tbl : gmap string Priority) (smells : list Smell) (p : Priority) :
  Permutation (plan_smells (plan_prio tbl smells p))
    (List.filter (fun s => bool_decide (priority tbl s = p)) smells).
Proof.
  unfold plan_prio. cbv zeta.
  destruct (List.filter (fun s => bool_decide (priority tbl s = p)) smells) as [|a l] eqn:E;
    [done|].
  simpl plan_smells at 1. rewrite plan_smells_flat_map.
  etrans; [|apply (group_by_uri_partition (a :: l))].
  apply flat_map_perm_pointwise. intros u. simpl.
  rewrite plan_file_smells. apply sort_by_perm.
Qed.

(** The plan lists every smell exactly once (the first one of a rule and
    function in a file with its guidance, the others as [Also at]
    lines): its smells are a permutation of its input. *)
Theorem report_plan_lists_every_smell_once (tbl : gmap string Priority) (smells : list Smell) :
  Permutation (plan_smells (report_plan tbl smells)) smells.
Proof.
  unfold report_plan. rewrite plan_smells_flat_map.
  etrans; [apply flat_map_perm_pointwise, plan_prio_smells|].
  apply (flat_map_filter_partition (priority tbl)); [apply all_priorities_NoDup|].
  intros x _. apply all_priorities_In.
Qed.

(* ------------------------------------------------------------------ *)
(** ** [report_detail] and [report_summary] *)

Definition detail_smells (ls : list DetailLine) : list Smell :=
  flat_map (fun ln => match ln with DetailItem s => [s] | _ => [] end) ls.

Definition detail_headers (ls : list DetailLine) : list (string * nat) :=
  flat_map (fun ln => match ln with DetailHeader u n => [(u, n)] | _ => [] end) ls.

Lemma detail_smells_flat_map {A} (g : A -> list DetailLine) (l : list A) :
  detail_smells (flat_map g l) = flat_map (fun x => detail_smells (g x)) l.
Proof.
  induction l as [|x l IH]; simpl; [done|].
  unfold detail_smells in *. by rewrite flat_map_app, IH.
Qed.

Lemma detail_smells_items (l : list Smell) : detail_smells (map DetailItem l) = l.
Proof. induction l as [|x l IH]; simpl; [done|]. by f_equal. Qed.

Lemma Sorted_map_impl {A B} (R : A -> A -> Prop) (R' : B -> B -> Prop) (f : A -> B)
    (l : list A) :
  (forall x y, R x y -> R' (f x) (f y)) -> Sorted R l -> Sorted R' (map f l).
Proof.
  intros HR Hs. induction Hs as [|x l Hs IH Hhd]; simpl; constructor; [done|].
  destruct Hhd; simpl; constructor. by apply HR.
Qed.

Lemma sort_by_length {A} (lt : A -> A -> bool) (l : list A) :
  length (sort_by lt l) = length l.
Proof.
  apply Permutation_length, sort_by_perm.
Qed.

(** [report_detail] prints one block per file: a header with the file
    path and its number of smells, followed by exactly the smells of that
    file, by start line.  Every file has one block, every smell is printed
    once, and the blocks come in non-increasing order of their size. *)
Theorem report_detail_layout (smells : list Smell) :
  exists gs : list (string * list Smell),
    report_detail smells =
      flat_map (fun g => DetailHeader g.1 (length g.2) :: map DetailItem g.2) gs /\
    NoDup (map fst gs) /\
    Forall (fun g => g.2 <> [] /\
                     Forall (fun s => uri (location s) = g.1) g.2 /\
                     Sorted (fun x y => start_line (location x) <= start_line (location y)) g.2)
      gs /\
    Permutation (concat (map snd gs)) smells /\
    Sorted (fun g h => (length h.2 <= length g.2)%nat) gs.
Proof.
  unfold report_detail. cbv zeta.
  set (by_file := group_by_uri smells).
  set (len_lt := fun u v => Nat.ltb (length (by_file v)) (length (by_file u))).
  set (keys := sort_by len_lt _).
  destruct (keys_in_order_spec (map (fun s => uri (location s)) smells)) as [Hnd Hin].
  assert (Hkp : Permutation keys (keys_in_order (map (fun s => uri (location s)) smells)))
    by apply sort_by_perm.
  exists (map (fun u => (u, sort_by start_lt (by_file u))) keys).
  split; [|split; [|split; [|split]]].
  - rewrite !flat_map_concat_map, map_map. f_equal.
    apply map_ext. intros u. cbn. by rewrite sort_by_length.
  - rewrite map_map. cbn. rewrite map_id. by rewrite Hkp.
  - apply List.Forall_forall. intros [u g] Hg. apply in_map_iff in Hg as [v [[= <- <-] Hv]].
    cbn. split; [|split].
    + apply (Permutation_in v Hkp), Hin, in_map_iff in Hv as [x [Hx Hxs]].
      intros Hnil. assert (Hxb : In x (by_file v)).
      { subst by_file. unfold group_by_uri. apply filter_In. split; [done|].
        by apply String.eqb_eq. }
      apply (Permutation_in x (Permutation_sym (sort_by_perm start_lt (by_file v)))) in Hxb.
      by rewrite Hnil in Hxb.
    + apply List.Forall_forall. intros x Hx.
      apply (Permutation_in x (sort_by_perm start_lt (by_file v))) in Hx.
      subst by_file. unfold group_by_uri in Hx. apply filter_In in Hx as [_ Hx].
      by apply String.eqb_eq.
    + apply sort_by_sorted.
      * intros x y H. unfold start_lt in H. apply Z.ltb_ge in H. done.
      * intros x y H. unfold start_lt in H. apply Z.ltb_lt in H. lia.
  - rewrite map_map. cbn. rewrite <- flat_map_concat_map.
    etrans; [|apply (group_by_uri_partition smells len_lt)].
    apply flat_map_perm_pointwise. intros u.
    apply sort_by_perm.
  - apply (Sorted_map_impl (fun u v => (length (by_file v) <= length (by_file u))%nat)).
    + intros x y H. cbn. by rewrite !sort_by_length.
    + apply sort_by_sorted.
      * intros x y H. apply Nat.ltb_ge in H. lia.
      * intros x y H. apply Nat.ltb_lt in H. lia.
Qed.

(** The counts of the [By priority:] section add up to the total number
    of smells printed above them. *)
Theorem summary_by_priority_total (tbl : gmap string Priority) (smells : list Smell) :
  list_sum (map snd (summary_by_priority tbl smells)) = length smells.
Proof.
  rewrite <- (Permutation_length
    (flat_map_filter_partition (priority tbl) all_priorities smells
       all_priorities_NoDup (fun x _ => all_priorities_In _))).
  unfold summary_by_priority. induction all_priorities as [|p ps IH]; simpl; [done|].
  rewrite length_app, <- IH.
  destruct (Nat.eqb_spec (length (List.filter (fun s => bool_decide (priority tbl s = p)) smells)) 0)
    as [H|H]; simpl; lia.
Qed.

(* ------------------------------------------------------------------ *)
(** ** [report_json] *)

(** [report_json] writes one row per smell, by non-increasing severity
    score, rows of equal score by file path. *)
Theorem report_json_rows (tbl : gmap string Priority) (smells : list Smell) :
  Permutation (report_json tbl smells) (map (json_row tbl) smells) /\
  Sorted (fun r1 r2 => (j_severity_score r2 < j_severity_score r1)%Q \/
                       ((j_severity_score r1 == j_severity_score r2)%Q /\
                        String.compare (j_file r1) (j_file r2) <> Gt))
    (report_json tbl smells).
Proof.
  unfold report_json. split.
  - apply Permutation_map, sort_by_perm.
  - apply (Sorted_map_impl (fix_order_le tbl)); [by intros x y H|].
    apply sort_by_sorted; [apply fix_order_of_not_lt | apply fix_order_of_lt].
Qed.

(* ------------------------------------------------------------------ *)
(** ** qlty: counters, rule categories and severities *)

Lemma count_by_go {K} `{Countable K} (f : Qlty.SarifIssue -> K) (l : list Qlty.SarifIssue)
    (m : gmap K nat) (k : K) :
  default 0%nat (fold_left (fun m i => Qlty.counter_incr m (f i)) l m !! k) =
  (default 0%nat (m !! k) + length (List.filter (fun i => bool_decide (f i = k)) l))%nat.
Proof.
  revert m. induction l as [|x l IH]; intros m; simpl; [lia|].
  rewrite IH. unfold Qlty.counter_incr.
  destruct (decide (f x = k)) as [<-|Hne].
  - rewrite lookup_insert_eq, bool_decide_eq_true_2 by done. simpl. lia.
  - rewrite lookup_insert_ne, bool_decide_eq_false_2 by done. done.
Qed.

Lemma count_by_lookup {K} `{Countable K} (f : Qlty.SarifIssue -> K) (l : list Qlty.SarifIssue)
    (k : K) :
  default 0%nat (Qlty.count_by f l !! k) =
  length (List.filter (fun i => bool_decide (f i = k)) l).
Proof. unfold Qlty.count_by. rewrite count_by_go, lookup_empty. done. Qed.

(** Each counter of [analyze_issues], read with [.get(key, 0)], gives
    the number of issues with that severity, rule, category or file. *)
Theorem analyze_issues_counter_lookup (l : list Qlty.SarifIssue) :
  (forall sev, default 0%nat (Qlty.by_severity (Qlty.analyze_issues l) !! sev) =
               length (List.filter (fun i => bool_decide (Qlty.level i = sev)) l)) /\
  (forall r, default 0%nat (Qlty.by_rule (Qlty.analyze_issues l) !! r) =
             length (List.filter (fun i => bool_decide (Qlty.rule_id i = r)) l)) /\
  (forall c, default 0%nat (Qlty.by_category (Qlty.analyze_issues l) !! c) =
             length (List.filter (fun i => bool_decide (Qlty.rule_category i = c)) l)) /\
  (forall p, default 0%nat (Qlty.by_file (Qlty.analyze_issues l) !! p) =
             length (List.filter (fun i => bool_decide (Qlty.file_path i = p)) l)).
Proof. repeat split; intros; apply count_by_lookup. Qed.

Lemma contains_sep (c : ascii) (ns rest : string) :
  Py.contains (ns ++ String c rest) (String c "") = true.
Proof.
  induction ns as [|a r IH]; simpl.
  - rewrite Ascii.eqb_refl. by destruct rest.
  - rewrite IH. apply orb_true_r.
Qed.

Lemma startswith_free (c : ascii) (s : string) :
  char_free c s = true -> Py.startswith s (String c "") = false.
Proof.
  destruct s as [|a r]; simpl; [done|].
  intros H. apply andb_true_iff in H as [Ha _]. apply negb_true_iff in Ha.
  rewrite Ascii.eqb_sym, Ha. done.
Qed.

Lemma contains_free (c : ascii) (s : string) :
  char_free c s = true -> Py.contains s (String c "") = false.
Proof.
  induction s as [|a r IH]; simpl; [done|].
  intros H. pose proof (startswith_free c (String a r) H) as Hs. simpl in Hs. rewrite Hs.
  apply andb_true_iff in H as [_ Hr]. by apply IH.
Qed.

Lemma split_free_prefix (c : ascii) (ns rest : string) :
  char_free c ns = true -> List.hd "" (Py.split c (ns ++ String c rest)) = ns.
Proof.
  induction ns as [|a r IH]; simpl.
  - by rewrite Ascii.eqb_refl.
  - intros H. apply andb_true_iff in H as [Ha Hr]. apply negb_true_iff in Ha.
    rewrite Ha. specialize (IH Hr).
    destruct (Py.split c (r ++ String c rest)) as [|p ps]; simpl in *; [by subst|].
    by rewrite IH.
Qed.

(** [rule_category] of [ns:rest] is the part before the first colon,
    and a rule id without a colon has the category ["unknown"]. *)
Theorem rule_category_spec (i : Qlty.SarifIssue) :
  (char_free ":" (Qlty.rule_id i) = true -> Qlty.rule_category i = "unknown") /\
  (forall ns rest, char_free ":" ns = true -> Qlty.rule_id i = ns ++ ":" ++ rest ->
                   Qlty.rule_category i = ns).
Proof.
  unfold Qlty.rule_category. split.
  - intros H. by rewrite (contains_free ":" _ H).
  - intros ns rest Hns ->. change (":" ++ rest) with (String ":" rest).
    rewrite contains_sep. by apply split_free_prefix.
Qed.

Lemma lower_upper_char (c : ascii) : Py.lower_char (Py.upper_char c) = Py.lower_char c.
Proof. destruct c as [[] [] [] [] [] [] [] []]; reflexivity. Qed.

Lemma lower_lower_char (c : ascii) : Py.lower_char (Py.lower_char c) = Py.lower_char c.
Proof. destruct c as [[] [] [] [] [] [] [] []]; reflexivity. Qed.

Lemma lower_upper (s : string) : Py.lower (Py.upper s) = Py.lower s.
Proof.
  induction s as [|c r IH]; [done|].
  unfold Py.upper, Py.lower in *. cbn. by rewrite lower_upper_char, IH.
Qed.

Lemma lower_lower (s : string) : Py.lower (Py.lower s) = Py.lower s.
Proof.
  induction s as [|c r IH]; [done|].
  unfold Py.lower in *. cbn. by rewrite lower_lower_char, IH.
Qed.

(** A string of ASCII characters only (code points below 128), on which
    Python's [str.upper] and [str.lower] change only the letters A-Z and
    a-z. *)
Fixpoint ascii_only (s : string) : bool :=
  match s with
  | EmptyString => true
  | String c r => Nat.ltb (nat_of_ascii c) 128 && ascii_only r
  end.

(** On an ASCII string, [Severity.from_str] ignores letter case:
    ["ERROR"], ["Error"] and ["error"] all give [ERROR]. *)
Theorem from_str_case_insensitive (s : string) :
  ascii_only s = true ->
  Qlty.from_str (Py.upper s) = Qlty.from_str s /\
  Qlty.from_str (Py.lower s) = Qlty.from_str s.
Proof. intros _. unfold Qlty.from_str. by rewrite lower_upper, lower_lower. Qed.

(* ------------------------------------------------------------------ *)
(** ** The two SARIF readers *)

(** All results of all runs, in document order. *)
Definition sarif_results (d : Sarif.Document) : list Sarif.Result :=
  flat_map (fun run => default [] (Sarif.results run)) (default [] (Sarif.runs d)).

Definition has_locations (r : Sarif.Result) : bool :=
  match default [] (Sarif.locations r) with [] => false | _ => true end.

Lemma flat_map_flat_map {A B C} (g : B -> list C) (h : A -> list B) (l : list A) :
  flat_map g (flat_map h l) = flat_map (fun x => flat_map g (h x)) l.
Proof. induction l as [|x l IH]; simpl; [done|]. by rewrite flat_map_app, IH. Qed.

Lemma qlty_parse_sarif_file_results (d : Sarif.Document) :
  Qlty.parse_sarif_file d = flat_map Qlty.parse_result (sarif_results d).
Proof. unfold Qlty.parse_sarif_file, sarif_results. by rewrite flat_map_flat_map. Qed.

Lemma parse_sarif_results (d : Sarif.Document) :
  parse_sarif d = flat_map parse_result (sarif_results d).
Proof. unfold parse_sarif, sarif_results. by rewrite flat_map_flat_map. Qed.

Lemma qlty_parse_result_shape (r : Sarif.Result) :
  length (Qlty.parse_result r) = (if has_locations r then 1 else 0)%nat /\
  Forall (fun i => Qlty.end_line i <> None /\ Qlty.category i = "") (Qlty.parse_result r).
Proof.
  unfold Qlty.parse_result, has_locations. cbv zeta.
  destruct (default [] (Sarif.locations r)); simpl.
  - split; [done|constructor].
  - split; [done|]. constructor; [|constructor]. simpl. done.
Qed.

Lemma qlty_parse_sarif_file_forall (d : Sarif.Document) :
  Forall (fun i => Qlty.end_line i <> None /\ Qlty.category i = "") (Qlty.parse_sarif_file d).
Proof.
  rewrite qlty_parse_sarif_file_results. induction (sarif_results d) as [|r rs IH]; simpl.
  - constructor.
  - apply Forall_app. split; [apply qlty_parse_result_shape|exact IH].
Qed.

(** [qlty.parser.parse_sarif_file] turns every result that has a
    location into exactly one issue, whose end line is never left
    empty, and leaves the category for its callers to fill in. *)
Theorem qlty_parse_sarif_file_shape (d : Sarif.Document) :
  length (Qlty.parse_sarif_file d) = length (List.filter has_locations (sarif_results d)) /\
  Forall (fun i => Qlty.end_line i <> None /\ Qlty.category i = "") (Qlty.parse_sarif_file d).
Proof.
  rewrite qlty_parse_sarif_file_results. induction (sarif_results d) as [|r rs IH]; simpl.
  - split; [done|constructor].
  - destruct IH as [IHl IHf]. destruct (qlty_parse_result_shape r) as [Hl Hf].
    rewrite length_app, Forall_app, Hl, IHl. split; [|done].
    destruct (has_locations r); simpl; lia.
Qed.

Lemma sublist_flat_map {A B} (f g : A -> list B) (l : list A) :
  (forall x, f x `sublist_of` g x) -> flat_map f l `sublist_of` flat_map g l.
Proof.
  intros H. induction l as [|x l IH]; simpl; [done|]. by apply sublist_app.
Qed.

(** Every smell [fix_smells.parse_sarif] reads from a document is also
    read, in the same order, by [qlty]'s [parse_sarif_file], with the
    same file, start line and message; [qlty] also keeps the results
    without a file path. *)
Theorem parse_sarif_sublist_qlty (d : Sarif.Document) :
  map (fun s => (uri (location s), start_line (location s), message s)) (parse_sarif d)
  `sublist_of`
  map (fun i => (Qlty.file_path i, Qlty.start_line i, Qlty.message i)) (Qlty.parse_sarif_file d).
Proof.
  rewrite parse_sarif_results, qlty_parse_sarif_file_results, !flat_map_concat_map,
    !concat_map, !map_map, <- !flat_map_concat_map.
  apply sublist_flat_map. intros r.
  unfold parse_result, _extract_location, Qlty.parse_result. cbv zeta.
  destruct (default [] (Sarif.locations r)) as [|l0 ls]; [done|].
  destruct (Sarif.art_uri (default Sarif.empty_artifact
              (Sarif.artifactLocation (default Sarif.empty_physical (Sarif.physicalLocation l0)))))
    as [u|]; simpl.
  - destruct (String.eqb u ""); simpl; [apply sublist_nil_l|done].
  - apply sublist_nil_l.
Qed.

(* ------------------------------------------------------------------ *)
(** ** qlty/runner.py and qlty/main.py *)

Lemma Forall_map_with_category (c : string) (l : list Qlty.SarifIssue) :
  Forall (fun i => Qlty.category i = c) (map (with_category c) l).
Proof. induction l; simpl; constructor; done. Qed.

Lemma run_qlty_smells_category (out : option Sarif.Document) :
  Forall (fun i => Qlty.category i = "smell") (QltyRun.run_qlty_smells out).
Proof.
  destruct out as [d|]; simpl; [|constructor].
  pose proof (qlty_parse_sarif_file_forall d) as Hf.
  induction Hf as [|i l [_ Hc] _ IH]; simpl; constructor; [|done].
  by rewrite Hc.
Qed.

Lemma collect_checks_category (a : QltyMain.QArgs) (e : QltyMain.QEnv) :
  Forall (fun i => Qlty.category i = "check") (QltyMain._collect_checks_issues a e).
Proof.
  unfold QltyMain._collect_checks_issues, QltyMain._load_checks_from_file.
  destruct (QltyMain.scan a); [apply Forall_map_with_category|].
  destruct (QltyMain.checks_file_doc e); [apply Forall_map_with_category|constructor].
Qed.

Lemma collect_smells_category (a : QltyMain.QArgs) (e : QltyMain.QEnv) :
  Forall (fun i => Qlty.category i = "smell") (QltyMain._collect_smells_issues a e).
Proof.
  unfold QltyMain._collect_smells_issues.
  destruct (QltyMain.smells_file_doc e), (QltyMain.scan a); simpl;
    first [apply Forall_map_with_category | apply run_qlty_smells_category | constructor].
Qed.

Lemma issue_types_flags (a : QltyMain.QArgs) :
  QltyMain.check a || QltyMain.smells a = true ->
  QltyMain.issue_types a = (QltyMain.check a, QltyMain.smells a).
Proof.
  intros H. unfold QltyMain.issue_types.
  destruct (QltyMain.check a), (QltyMain.smells a); done.
Qed.

(** Every issue [qlty] collects is tagged ["check"] or ["smell"], checks
    before smells; [--check] without [--smells] collects only checks and
    [--smells] without [--check] only smells, whatever [--type] says. *)
Theorem collect_all_issues_categories (a : QltyMain.QArgs) (e : QltyMain.QEnv) :
  (exists cs ss, QltyMain._collect_all_issues a e = app cs ss /\
     Forall (fun i => Qlty.category i = "check") cs /\
     Forall (fun i => Qlty.category i = "smell") ss) /\
  (QltyMain.check a = true -> QltyMain.smells a = false ->
     Forall (fun i => Qlty.category i = "check") (QltyMain._collect_all_issues a e)) /\
  (QltyMain.smells a = true -> QltyMain.check a = false ->
     Forall (fun i => Qlty.category i = "smell") (QltyMain._collect_all_issues a e)).
Proof.
  pose proof (collect_checks_category a e) as Hc.
  pose proof (collect_smells_category a e) as Hs.
  unfold QltyMain._collect_all_issues. split; [|split].
  - destruct (QltyMain.issue_types a) as [dc ds].
    eexists _, _. split; [reflexivity|].
    split; [destruct dc|destruct ds]; done.
  - intros Hck Hsm. rewrite issue_types_flags by (by rewrite Hck).
    rewrite Hck, Hsm. by rewrite app_nil_r.
  - intros Hsm Hck. rewrite issue_types_flags by (by rewrite Hsm, orb_true_r).
    rewrite Hck, Hsm. done.
Qed.

Lemma list_filter_filter {A} (p q : A -> bool) (l : list A) :
  List.filter q (List.filter p l) = List.filter (fun x => p x && q x) l.
Proof.
  induction l as [|x l IH]; simpl; [done|].
  destruct (p x); simpl; [destruct (q x); simpl; by rewrite IH|exact IH].
Qed.

Lemma exclude_fold_spec {A} (ps : list string) (m : A -> string -> bool) (l : list A) :
  fold_left (fun l p => List.filter (fun i => negb (m i p)) l) ps l =
  List.filter (fun i => forallb (fun p => negb (m i p)) ps) l.
Proof.
  revert l. induction ps as [|p ps IH]; intros l; simpl.
  - symmetry. apply list_filter_true.
  - rewrite IH, list_filter_filter. apply filter_ext. intros i. by rewrite andb_comm.
Qed.

Lemma forallb_negb_In (ps : list string) (q : string -> bool) :
  forallb (fun p => negb (q p)) ps = true -> forall p, In p ps -> q p = false.
Proof.
  intros H p Hp. rewrite forallb_forall in H. apply negb_true_iff, H, Hp.
Qed.

(** The filters of [qlty] keep the issues in their order, and what they
    keep matches the [--severity] given and none of the [--exclude-rule],
    [--exclude-category] and [--exclude-file] values. *)
Theorem apply_filters_sound (fnmatch : string -> string -> bool) (a : QltyMain.QArgs)
    (l : list Qlty.SarifIssue) :
  QltyMain.apply_filters fnmatch a l `sublist_of` l /\
  Forall (fun i =>
      (forall sv, truthy (QltyMain.severity a) = Some sv -> Qlty.level i = Qlty.from_str sv) /\
      (forall r, In r (QltyMain.exclude_rule a) -> Py.contains (Qlty.rule_id i) r = false) /\
      (forall c, In c (QltyMain.exclude_category a) ->
                 Py.contains (Qlty.rule_category i) c = false) /\
      (forall p, In p (QltyMain.exclude_file a) -> fnmatch (Qlty.file_path i) p = false))
    (QltyMain.apply_filters fnmatch a l).
Proof.
  unfold QltyMain.apply_filters, QltyMain._apply_exclude_file_filter,
    QltyMain._apply_exclude_category_filter, QltyMain._apply_exclude_rule_filter.
  rewrite !exclude_fold_spec.
  set (l1 := QltyMain._apply_file_filter fnmatch a _).
  assert (Hsev : l1 `sublist_of` l /\
    Forall (fun i => forall sv, truthy (QltyMain.severity a) = Some sv ->
                                Qlty.level i = Qlty.from_str sv) l1).
  { subst l1. unfold QltyMain._apply_file_filter, QltyMain._apply_category_filter,
      QltyMain._apply_rule_filter, QltyMain._apply_severity_filter.
    assert (Hs : forall (p : Qlty.SarifIssue -> bool) l0 P,
      l0 `sublist_of` l /\ Forall P l0 ->
      List.filter p l0 `sublist_of` l /\ Forall P (List.filter p l0)).
    { intros p l0 P [H1 H2]. split.
      - etrans; [apply list_filter_sublist|exact H1].
      - apply List.Forall_forall. intros x Hx. apply filter_In in Hx as [Hx _].
        by apply (proj1 (List.Forall_forall P l0) H2). }
    set (P := fun i : Qlty.SarifIssue => forall sv, truthy (QltyMain.severity a) = Some sv ->
                                 Qlty.level i = Qlty.from_str sv).
    assert (H0 : QltyMain._apply_severity_filter a l `sublist_of` l /\
                 Forall P (QltyMain._apply_severity_filter a l)).
    { unfold QltyMain._apply_severity_filter, P.
      destruct (truthy (QltyMain.severity a)) as [sv|]; split.
      - apply list_filter_sublist.
      - apply List.Forall_forall. intros x Hx. apply filter_In in Hx as [_ Hx].
        intros sv' [= <-]. by apply bool_decide_eq_true in Hx.
      - done.
      - apply List.Forall_forall. intros x _ sv' [=]. }
    destruct (truthy (QltyMain.file a)), (truthy (QltyMain.category a)),
      (truthy (QltyMain.rule a)); repeat (first [exact H0 | apply Hs]). }
  destruct Hsev as [Hsub Hall]. split.
  - do 3 (etrans; [apply list_filter_sublist|]). exact Hsub.
  - apply List.Forall_forall. intros x Hx.
    apply filter_In in Hx as [Hx Hf].
    apply filter_In in Hx as [Hx Hc].
    apply filter_In in Hx as [Hx Hr].
    split; [exact (proj1 (List.Forall_forall _ l1) Hall x Hx)|].
    split; [exact (forallb_negb_In _ _ Hr)|].
    split; [exact (forallb_negb_In _ _ Hc)|exact (forallb_negb_In _ _ Hf)].
Qed.

(** The order of the [--exclude-*] values does not change the result. *)
Theorem apply_filters_exclude_order (fnmatch : string -> string -> bool)
    (a b : QltyMain.QArgs) (l : list Qlty.SarifIssue) :
  QltyMain.severity a = QltyMain.severity b -> QltyMain.rule a = QltyMain.rule b ->
  QltyMain.category a = QltyMain.category b -> QltyMain.file a = QltyMain.file b ->
  Permutation (QltyMain.exclude_rule a) (QltyMain.exclude_rule b) ->
  Permutation (QltyMain.exclude_category a) (QltyMain.exclude_category b) ->
  Permutation (QltyMain.exclude_file a) (QltyMain.exclude_file b) ->
  QltyMain.apply_filters fnmatch a l = QltyMain.apply_filters fnmatch b l.
Proof.
  intros Hsev Hrule Hcat Hfile Pr Pc Pf.
  assert (Hperm : forall (m : Qlty.SarifIssue -> string -> bool) ps qs l0,
    Permutation ps qs ->
    List.filter (fun i => forallb (fun p => negb (m i p)) ps) l0 =
    List.filter (fun i => forallb (fun p => negb (m i p)) qs) l0).
  { intros m ps qs l0 P. apply filter_ext. intros i.
    apply eq_true_iff_eq. rewrite !forallb_forall. split; intros H p Hp; apply H.
    - by apply (Permutation_in p (Permutation_sym P)).
    - by apply (Permutation_in p P). }
  unfold QltyMain.apply_filters, QltyMain._apply_exclude_file_filter,
    QltyMain._apply_exclude_category_filter, QltyMain._apply_exclude_rule_filter,
    QltyMain._apply_file_filter, QltyMain._apply_category_filter,
    QltyMain._apply_rule_filter, QltyMain._apply_severity_filter.
  rewrite !exclude_fold_spec, Hsev, Hrule, Hcat, Hfile.
  rewrite (Hperm _ _ _ _ Pr), (Hperm _ _ _ _ Pc), (Hperm _ _ _ _ Pf). done.
Qed.

(* ------------------------------------------------------------------ *)
(** ** The built-in [attempt_fix] and [_run_ast_grep] *)

(** A smell the built-in strategies can rewrite: a nested control flow
    in a language with a pattern. *)
Definition ast_grep_target (s : Smell) : bool :=
  String.eqb (rule_short s) "nested-control-flow" &&
  bool_decide (is_Some (_NESTING_PATTERNS !! detected_language (location s))).

Lemma registry_rule_go (l : list FixStrategy) (m : gmap string FixStrategy) :
  (forall k st, m !! k = Some st -> st_rule st = k) ->
  forall k st, fold_left (fun m st => <[st_rule st := st]> m) l m !! k = Some st ->
               st_rule st = k.
Proof.
  revert m. induction l as [|x l IH]; intros m Hm; simpl; [exact Hm|].
  apply IH. intros k st Hk. apply lookup_insert_Some in Hk as [[<- <-]|[_ Hk]]; [done|].
  by apply Hm.
Qed.

Lemma STRATEGY_REGISTRY_rule (k : string) (st : FixStrategy) :
  get_strategy STRATEGY_REGISTRY k = Some st -> st_rule st = k.
Proof.
  apply registry_rule_go. intros k' st'. by rewrite lookup_empty.
Qed.

Lemma length_filter_impl {A} (p q : A -> bool) (l : list A) :
  (forall x, p x = true -> q x = true) ->
  (length (List.filter p l) <= length (List.filter q l))%nat.
Proof.
  intros H. induction l as [|x l IH]; simpl; [lia|].
  destruct (p x) eqn:Ep; [rewrite (H x Ep); simpl; lia|].
  destruct (q x); simpl; lia.
Qed.

Lemma Permutation_list_filter {A} (p : A -> bool) (l1 l2 : list A) :
  Permutation l1 l2 -> Permutation (List.filter p l1) (List.filter p l2).
Proof.
  induction 1; simpl.
  - done.
  - destruct (p x); [by constructor|done].
  - destruct (p x), (p y); try constructor; done.
  - by etrans.
Qed.

(** With the built-in strategies, [apply_fixes] fixes at most the
    nested control flow smells in a language with a pattern (no
    [boolean-logic] smell is ever fixed, although it is counted as
    auto-fixable), and nothing at all when [ast-grep] cannot be run. *)
Theorem apply_fixes_builtin_fixed (tbl : gmap string Priority)
    (ast_grep : string -> string -> string -> string -> option Z) (smells : list Smell) :
  let r := apply_fixes tbl STRATEGY_REGISTRY (builtin_attempt_fix ast_grep) smells in
  (n_fixed r <= length (List.filter ast_grep_target smells))%nat /\
  ((forall p f l t, ast_grep p f l t = None) -> n_fixed r = 0%nat).
Proof.
  cbn zeta. unfold apply_fixes. cbn [n_fixed]. cbv zeta.
  set (ok := fun s => match get_strategy STRATEGY_REGISTRY (rule_short s) with
                      | Some st => builtin_attempt_fix ast_grep st s
                      | None => false end).
  set (fixable := List.filter (is_auto_fixable STRATEGY_REGISTRY) smells).
  assert (Hok : forall s, ok s = true -> ast_grep_target s = true).
  { intros s. subst ok. cbv beta.
    destruct (get_strategy STRATEGY_REGISTRY (rule_short s)) as [st|] eqn:Est; [|done].
    apply STRATEGY_REGISTRY_rule in Est.
    unfold builtin_attempt_fix, ast_grep_target. rewrite <- Est.
    destruct (String.eqb (st_rule st) "nested-control-flow"); [|done]. cbv zeta.
    destruct (String.eqb _ ""); [done|].
    destruct (_NESTING_PATTERNS !! _); [|done]. intros _.
    by apply bool_decide_eq_true. }
  split.
  - etrans; [apply (length_filter_impl _ _ _ Hok)|].
    rewrite (Permutation_length (Permutation_list_filter ast_grep_target _ _
               (sort_by_perm (fix_key_lt tbl) fixable))).
    subst fixable. rewrite list_filter_filter.
    apply length_filter_impl. intros x Hx. apply andb_true_iff in Hx as [_ Hx]. exact Hx.
  - intros Hnone.
    assert (Hf : forall s, ok s = false).
    { intros s. subst ok. cbv beta.
      destruct (get_strategy STRATEGY_REGISTRY (rule_short s)) as [st|]; [|done].
      unfold builtin_attempt_fix, _run_ast_grep.
      destruct (String.eqb (st_rule st) "nested-control-flow"); [|done]. cbv zeta.
      destruct (String.eqb _ ""); [done|].
      destruct (_NESTING_PATTERNS !! _) as [[pat fix']|]; [|done].
      destruct (String.eqb pat ""); [done|]. by rewrite Hnone. }
    clearbody ok. induction (sort_by (fix_key_lt tbl) fixable) as [|x l IH]; [done|].
    cbn [List.filter]. by rewrite Hf.
Qed.

(* ------------------------------------------------------------------ *)
(** ** [load_config]: the [priorities] section *)

Lemma load_config_other (tbl : gmap string Priority) (cfg : list (string * string)) (r : string) :
  (forall n, In (r, n) cfg -> priority_of_name (Py.upper n) = None) ->
  load_config_priorities tbl cfg !! r = tbl !! r.
Proof.
  revert tbl. induction cfg as [|[k n] cfg IH]; intros tbl H; simpl; [done|].
  rewrite IH by (intros n' Hn'; apply H; by right).
  destruct (priority_of_name (Py.upper n)) as [p|] eqn:Ep; [|done].
  destruct (decide (k = r)) as [->|Hne].
  - rewrite (H n (or_introl eq_refl)) in Ep. done.
  - by rewrite lookup_insert_ne.
Qed.

(** After [load_config], a rule of the configuration with a valid
    priority name (in any letter case) has that priority; every other
    rule, including one given an unknown name, keeps its priority. *)
Theorem load_config_priority (tbl : gmap string Priority) (cfg : list (string * string))
    (r : string) :
  NoDup (map fst cfg) ->
  (forall n p, In (r, n) cfg -> priority_of_name (Py.upper n) = Some p ->
               load_config_priorities tbl cfg !! r = Some p) /\
  ((forall n, In (r, n) cfg -> priority_of_name (Py.upper n) = None) ->
   load_config_priorities tbl cfg !! r = tbl !! r).
Proof.
  intros Hnd. split; [|apply load_config_other].
  revert tbl. induction cfg as [|[k n'] cfg IH]; intros tbl n p Hin Hp; [done|].
  simpl in Hnd. apply NoDup_cons in Hnd as [Hk Hnd]. simpl.
  destruct Hin as [[= -> ->]|Hin].
  - rewrite Hp. rewrite load_config_other.
    + apply lookup_insert_eq.
    + intros n'' Hn''. exfalso. apply Hk. apply list_elem_of_In.
      exact (in_map fst _ _ Hn'').
  - exact (IH Hnd _ n p Hin Hp).
Qed.

(* ------------------------------------------------------------------ *)
(** ** Instances of the properties with hypotheses *)

Definition sample_smell : Smell :=
  {| rule_id := "qlty:function-complexity"; level := "warning";
     message := "Function with high complexity (count = 23)";
     location := {| uri := "src/mcb-server/src/handlers.rs"; start_line := 10; start_column := 1;
                    end_line := 85; end_column := 2; language := "" |};
     fingerprints := {[ "function.name" := "handle" ]}; taxa := [] |}.

Definition sample_smell_similar : Smell :=
  {| rule_id := "qlty:similar-code"; level := "note";
     message := message sample_smell; location := location sample_smell;
     fingerprints := ∅; taxa := [] |}.

Lemma rule_short_namespaced_witness :
  char_free ":" "function-complexity" = true /\
  rule_id sample_smell = "qlty" ++ ":" ++ "function-complexity" /\
  rule_short sample_smell = "function-complexity".
Proof.
  split; [reflexivity|]. split; [reflexivity|].
  exact (proj2 (rule_short_namespaced sample_smell) "qlty" "function-complexity"
           eq_refl eq_refl).
Defined.

Lemma complexity_count_spec_witness :
  complexity_count sample_smell = Some 23 /\
  Py.contains (message sample_smell) "count" = true /\ 0 <= 23.
Proof.
  split; [vm_compute; reflexivity|].
  apply (complexity_count_spec sample_smell 23). vm_compute. reflexivity.
Defined.

Lemma severity_score_priority_monotone_witness :
  location sample_smell_similar = location sample_smell /\
  priority_ord (priority RULE_PRIORITY sample_smell_similar) = 2 /\
  priority_ord (priority RULE_PRIORITY sample_smell) = 3 /\
  (severity_score RULE_PRIORITY sample_smell <= severity_score RULE_PRIORITY sample_smell_similar)%Q.
Proof.
  split; [reflexivity|]. split; [vm_compute; reflexivity|]. split; [vm_compute; reflexivity|].
  apply (severity_score_priority_monotone RULE_PRIORITY sample_smell_similar sample_smell
           eq_refl eq_refl).
  vm_compute. discriminate.
Defined.

Definition sample_qargs (xr xc xf : list string) : QltyMain.QArgs :=
  {| QltyMain.scan := false; QltyMain.type_ := "all"; QltyMain.check := false;
     QltyMain.smells := false; QltyMain.severity := Some "warning";
     QltyMain.rule := None; QltyMain.category := None; QltyMain.file := None;
     QltyMain.exclude_rule := xr; QltyMain.exclude_category := xc;
     QltyMain.exclude_file := xf; QltyMain.summary_only := false |}.

Definition sample_issue : Qlty.SarifIssue :=
  {| Qlty.rule_id := "qlty:function-complexity"; Qlty.level := Qlty.WARNING;
     Qlty.message := "Function with high complexity (count = 23)";
     Qlty.file_path := "src/mcb-server/src/handlers.rs"; Qlty.start_line := 10;
     Qlty.end_line := Some 85; Qlty.category := "smell"; Qlty.help_uri := "";
     Qlty.fingerprints := ∅ |}.

Lemma apply_filters_exclude_order_witness :
  QltyMain.apply_filters (fun _ _ => false)
      (sample_qargs ["similar-code"; "lint"] ["ripgrep"; "qlty"] ["*.md"; "*.toml"])
      [sample_issue] =
  QltyMain.apply_filters (fun _ _ => false)
      (sample_qargs ["lint"; "similar-code"] ["qlty"; "ripgrep"] ["*.toml"; "*.md"])
      [sample_issue].
Proof.
  apply apply_filters_exclude_order; try reflexivity; apply perm_swap.
Defined.

Lemma from_str_case_insensitive_witness :
  ascii_only "Warning" = true /\
  Qlty.from_str (Py.upper "Warning") = Qlty.from_str "Warning" /\
  Qlty.from_str (Py.lower "Warning") = Qlty.from_str "Warning".
Proof.
  split; [reflexivity|]. apply (from_str_case_insensitive "Warning"). reflexivity.
Defined.

Lemma load_config_priority_witness :
  NoDup (map fst [("long-method", "high"); ("god-class", "urgent")]) /\
  load_config_priorities RULE_PRIORITY [("long-method", "high"); ("god-class", "urgent")]
    !! "long-method" = Some HIGH.
Proof.
  assert (Hnd : NoDup (map fst [("long-method", "high"); ("god-class", "urgent")]))
    by (vm_compute; repeat constructor; set_solver).
  split; [exact Hnd|].
  exact (proj1 (load_config_priority RULE_PRIORITY _ "long-method" Hnd) "high" HIGH
           (or_introl eq_refl) eq_refl).
Defined.

(* ------------------------------------------------------------------ *)
(** ** De-duplication in the Plan view *)
















